(** * LLM-server: the chat gateway, the health reporter and the monitor

    A shallow embedding of the Python sources [config.py], [model_server.py],
    [vllm_server.py] and [monitor.py], and the properties of the
    specification stated over it.

    Conventions of the embedding:
    - a Python [float] is a primitive binary64 [float]; a Python [int] is a [Z];
    - an [Optional[...]] request field is an [option];
    - a [Dict[str, str]] message is a [gmap string string]; the JSON documents
      of the monitor, whose key order matters, are association lists;
    - code that may raise returns a [result]; an HTTP handler returns either
      its response model or the [HTTPException] it raises;
    - the collaborators (tokenizer, model, engine, probes, clock) are
      arguments of the functions that call them. *)

From Stdlib Require Import Floats.PrimFloat ZArith Uint63.
From stdpp Require Import gmap strings list pretty.

Set Warnings "-register-all".

Open Scope string_scope.
Open Scope list_scope.
Open Scope Z_scope.

(** ** Python values shared by the modules *)

(** The newline of the f-strings. *)
Definition nl : string := String (Ascii.ascii_of_nat 10) "".

(** [bool(x)] for an [Optional[int]]: [None] and [0] are falsy. *)
Definition truthy_int (x : option Z) : bool :=
  match x with
  | Some z => negb (z =? 0)
  | None => false
  end.

(** [bool(x)] for an [Optional[float]]: [None], [0.0] and [-0.0] are falsy. *)
Definition truthy_float (x : option float) : bool :=
  match x with
  | Some f => negb (PrimFloat.eqb f 0%float)
  | None => false
  end.

(** [x or d] on an [Optional[int]]. *)
Definition or_int (x : option Z) (d : Z) : Z :=
  match x with
  | Some z => if truthy_int x then z else d
  | None => d
  end.

(** [x or d] on an [Optional[float]]. *)
Definition or_float (x : option float) (d : float) : float :=
  match x with
  | Some f => if truthy_float x then f else d
  | None => d
  end.

(** [x is not None]. *)
Definition is_not_None {A} (x : option A) : bool :=
  match x with
  | Some _ => true
  | None => false
  end.

(** Raised exceptions carry their message, [str(e)]. *)
Inductive result (A : Type) : Type :=
  | Ok (a : A)
  | Raise (msg : string).
Arguments Ok {A} a.
Arguments Raise {A} msg.

#[global] Instance result_ret : MRet result := fun A a => Ok a.

#[global] Instance result_bind : MBind result := fun A B k r =>
  match r with
  | Ok a => k a
  | Raise e => Raise e
  end.

(** What a FastAPI handler produces: its response model, or the
    [HTTPException(status_code, detail)] it raises. *)
Inductive http (A : Type) : Type :=
  | Respond (a : A)
  | HTTPException (status_code : Z) (detail : string).
Arguments Respond {A} a.
Arguments HTTPException {A} status_code detail.

(** [ChatRequest], identical in both servers. *)
Record ChatRequest := {
  messages : list (gmap string string);
  max_tokens : option Z;
  temperature : option float;
  top_p : option float;
  stream : bool
}.

(** The [usage] dictionary of [ChatResponse]. *)
Record Usage := {
  prompt_tokens : Z;
  completion_tokens : Z;
  total_tokens : Z
}.

Record ChatResponse := {
  response : string;
  usage : Usage;
  model : string;
  processing_time : float
}.

(** ** config.py *)

Module ModelConfig.

Definition MODEL_NAME : string := "Qwen/Qwen2.5-32B-Instruct".
Definition MAX_TOKENS : Z := 2048.
Definition TEMPERATURE : float := 0x1.6666666666666p-1%float. (* 0.7 *)
Definition TOP_P : float := 0x1.ccccccccccccdp-1%float. (* 0.9 *)
Definition REPETITION_PENALTY : float := 0x1.199999999999ap+0%float. (* 1.1 *)

(** The values of the generation keyword dictionary. *)
Inductive kwarg :=
  | KInt (z : Z)
  | KFloat (f : float)
  | KBool (b : bool).

(** A keyword dictionary keeps insertion order; keys are distinct. *)
Definition kwargs := list (string * kwarg).

Definition get_generation_kwargs : kwargs :=
  [ ("max_new_tokens", KInt MAX_TOKENS);
    ("temperature", KFloat TEMPERATURE);
    ("top_p", KFloat TOP_P);
    ("repetition_penalty", KFloat REPETITION_PENALTY);
    ("do_sample", KBool true);
    ("pad_token_id", KInt 151643);
    ("eos_token_id", KInt 151643) ].

End ModelConfig.

(** Python dictionaries as association lists: [d.get(k)] and [d[k] = v]. *)
Section Dict.
Context {V : Type}.

Fixpoint dict_get (k : string) (d : list (string * V)) : option V :=
  match d with
  | [] => None
  | (k', v) :: d' => if decide (k = k') then Some v else dict_get k d'
  end.

(** Assignment replaces the value of a key in place, and appends a new key. *)
Fixpoint dict_set (k : string) (v : V) (d : list (string * V)) : list (string * V) :=
  match d with
  | [] => [(k, v)]
  | (k', v') :: d' =>
      if decide (k = k') then (k, v) :: d' else (k', v') :: dict_set k v d'
  end.
End Dict.

(** ** The prompt formatter ([format_chat_messages], the same in both servers) *)

Module Formatter.

(** The body of the loop. *)
Definition format_step (formatted_text : string) (message : gmap string string) : string :=
  let role := default "" (message !! "role") in
  let content := default "" (message !! "content") in
  if decide (role = "user") then
    formatted_text +:+ ("<|im_start|>user" +:+ nl +:+ content +:+ "<|im_end|>" +:+ nl)
  else if decide (role = "assistant") then
    formatted_text +:+ ("<|im_start|>assistant" +:+ nl +:+ content +:+ "<|im_end|>" +:+ nl)
  else formatted_text.

Definition format_chat_messages (messages : list (gmap string string)) : string :=
  let formatted_text := foldl format_step "" messages in
  formatted_text +:+ ("<|im_start|>assistant" +:+ nl).

(** The specification's wording: the role-tagged block of a turn, the turns
    that are kept, and the trailing open assistant marker. *)
Definition role_of (message : gmap string string) : string :=
  default "" (message !! "role").

Definition content_of (message : gmap string string) : string :=
  default "" (message !! "content").

Definition block (role content : string) : string :=
  "<|im_start|>" +:+ role +:+ nl +:+ content +:+ "<|im_end|>" +:+ nl.

Definition kept (message : gmap string string) : bool :=
  bool_decide (role_of message = "user") || bool_decide (role_of message = "assistant").

Definition open_assistant_marker : string := "<|im_start|>assistant" +:+ nl.

Definition format_spec (conversation : list (gmap string string)) : string :=
  String.concat ""
    (map (fun m => block (role_of m) (content_of m)) (filter (fun m => kept m = true) conversation))
  +:+ open_assistant_marker.

End Formatter.

(** ** Host probes and the health snapshot (the same in both servers) *)

Module Health.

(** What [GPUtil.getGPUs()] reports of a device. *)
Record GPU := {
  memoryUsed : float;
  memoryTotal : float;
  memoryUtil : float
}.

(** The values stored in the [gpu_memory] dictionary. *)
Inductive pyval :=
  | PFloat (f : float)
  | PStr (s : string)
  | PDict (d : list (string * pyval)).

Definition gpu_error_marker : string := "无法获取GPU信息".

(** [get_system_info]: the device enumeration is inside the [try], the host
    memory reading is not. *)
Definition get_system_info (getGPUs : result (list GPU)) (virtual_memory : result float)
  : result (list (string * pyval) * float) :=
  let gpu_memory :=
    match getGPUs with
    | Ok gpus =>
        imap (fun i gpu =>
                ("gpu_" +:+ pretty i,
                 PDict [ ("used", PFloat gpu.(memoryUsed));
                         ("total", PFloat gpu.(memoryTotal));
                         ("utilization", PFloat (gpu.(memoryUtil) * 100)%float) ]))
             gpus
    | Raise _ => [ ("error", PStr gpu_error_marker) ]
    end in
  memory_percent ← virtual_memory;
  Ok (gpu_memory, memory_percent).

(** [HealthResponse]: [gpu_memory] is declared [Dict[str, float]]. *)
Record HealthResponse := {
  status : string;
  model_loaded : bool;
  gpu_memory : list (string * float);
  system_memory : float
}.

Section Validation.
(** [float(s)] on a string, as the float validator of the response model
    tries it: [None] when the string is no float literal. *)
Variable float_of_str : string -> option float.

(** Constructing a response model validates every field against its
    declared type. A value of a [Dict[str, float]] field passes when it is a
    float or a string that [float()] accepts; anything else raises. *)
Definition validate_float (v : pyval) : result float :=
  match v with
  | PFloat f => Ok f
  | PStr s =>
      match float_of_str s with
      | Some f => Ok f
      | None => Raise "value is not a valid float"
      end
  | PDict _ => Raise "value is not a valid float"
  end.

Fixpoint validate_gpu_memory (d : list (string * pyval)) : result (list (string * float)) :=
  match d with
  | [] => Ok []
  | (k, v) :: d' =>
      f ← validate_float v;
      d'' ← validate_gpu_memory d';
      Ok ((k, f) :: d'')
  end.

(** [health_check] of [model_server.py]; [handle] is the global [model]
    ([None] when nothing is loaded). The handler of [vllm_server.py] reads
    [engine] instead and adds the engine's limits to the snapshot. *)
Definition health_check {Handle : Type} (handle : option Handle)
    (getGPUs : result (list GPU)) (virtual_memory : result float)
  : result HealthResponse :=
  '(gpu_memory, system_memory) ← get_system_info getGPUs virtual_memory;
  gpu_memory ← validate_gpu_memory gpu_memory;
  Ok {| status := if is_not_None handle then "healthy" else "unhealthy";
        model_loaded := is_not_None handle;
        gpu_memory := gpu_memory;
        system_memory := system_memory |}.
End Validation.

End Health.

(** ** model_server.py: the blocking backend *)

Module ModelServer.
Import ModelConfig.

(** The loaded tokenizer: [tokenizer(text).input_ids[0]] and
    [tokenizer.decode]. *)
Record Tokenizer := {
  encode : string -> result (list Z);
  decode : list Z -> result string
}.

(** The loaded model: [model.generate(input_ids, **kwargs)[0]]. *)
Record Model := {
  generate : list Z -> kwargs -> result (list Z)
}.

(** The calls a request makes on the tokenizer and the model, in order. *)
Inductive call :=
  | CallEncode (input_text : string)
  | CallGenerate (input_ids : list Z) (generation_kwargs : kwargs)
  | CallDecode (token_ids : list Z).

(** Lines 212-218: the defaults, then the three conditional assignments. *)
Definition generation_kwargs_of (request : ChatRequest) : kwargs :=
  let generation_kwargs := get_generation_kwargs in
  let generation_kwargs :=
    match request.(max_tokens) with
    | Some z =>
        if truthy_int (Some z)
        then dict_set "max_new_tokens" (KInt z) generation_kwargs
        else generation_kwargs
    | None => generation_kwargs
    end in
  let generation_kwargs :=
    match request.(temperature) with
    | Some f =>
        if truthy_float (Some f)
        then dict_set "temperature" (KFloat f) generation_kwargs
        else generation_kwargs
    | None => generation_kwargs
    end in
  match request.(top_p) with
  | Some f =>
      if truthy_float (Some f)
      then dict_set "top_p" (KFloat f) generation_kwargs
      else generation_kwargs
  | None => generation_kwargs
  end.

Definition error_detail (e : string) : string := "处理请求时发生错误: " +:+ e.

(** [chat]: [start_time] and [end_time] are the two clock readings. The
    result is paired with the calls made on the tokenizer and the model. *)
Definition chat (model : option Model) (tokenizer : option Tokenizer)
    (start_time end_time : float) (request : ChatRequest)
  : list call * http ChatResponse :=
  match model, tokenizer with
  | Some model, Some tokenizer =>
      let input_text := Formatter.format_chat_messages request.(messages) in
      match tokenizer.(encode) input_text with
      | Raise e => ([CallEncode input_text], HTTPException 500 (error_detail e))
      | Ok input_ids =>
          let generation_kwargs := generation_kwargs_of request in
          match model.(generate) input_ids generation_kwargs with
          | Raise e =>
              ([CallEncode input_text; CallGenerate input_ids generation_kwargs],
               HTTPException 500 (error_detail e))
          | Ok outputs =>
              let new_tokens := drop (length input_ids) outputs in
              let calls := [CallEncode input_text;
                            CallGenerate input_ids generation_kwargs;
                            CallDecode new_tokens] in
              match tokenizer.(decode) new_tokens with
              | Raise e => (calls, HTTPException 500 (error_detail e))
              | Ok response_text =>
                  let input_tokens := Z.of_nat (length input_ids) in
                  let output_tokens := Z.of_nat (length outputs) - input_tokens in
                  let total_tokens := input_tokens + output_tokens in
                  let processing_time := (end_time - start_time)%float in
                  (calls,
                   Respond {| response := response_text;
                              usage := {| prompt_tokens := input_tokens;
                                          completion_tokens := output_tokens;
                                          total_tokens := total_tokens |};
                              model := MODEL_NAME;
                              processing_time := processing_time |})
              end
          end
      end
  | _, _ => ([], HTTPException 503 "模型未加载")
  end.

End ModelServer.

(** ** vllm_server.py: the streaming engine *)

Module VllmServer.
Import ModelConfig.

(** The arguments given to [SamplingParams(...)]. *)
Record SamplingParams := {
  sp_max_tokens : Z;
  sp_temperature : float;
  sp_top_p : float;
  sp_repetition_penalty : float;
  sp_stop : list string
}.

(** What the handlers read of a [RequestOutput]: [finished],
    [outputs[0].text], [outputs[0].token_ids] and [prompt_token_ids]. *)
Record RequestOutput := {
  finished : bool;
  text : string;
  token_ids : list Z;
  prompt_token_ids : list Z
}.

(** One step of the asynchronous generator returned by [engine.generate]:
    it yields an output or raises; the end of the list is its exhaustion. *)
Inductive step :=
  | Yield (request_output : RequestOutput)
  | Throw (msg : string).

(** The engine handle. *)
Record Engine := {
  generate : string -> SamplingParams -> string -> list step
}.

Inductive call :=
  | CallGenerate (input_text : string) (sampling_params : SamplingParams) (request_id : string).

(** Lines 208-214 (and 275-281): the arguments of [SamplingParams(...)]. *)
Definition sampling_params_of (request : ChatRequest) : SamplingParams :=
  {| sp_max_tokens := or_int request.(max_tokens) MAX_TOKENS;
     sp_temperature := or_float request.(temperature) TEMPERATURE;
     sp_top_p := or_float request.(top_p) TOP_P;
     sp_repetition_penalty := REPETITION_PENALTY;
     sp_stop := ["<|im_end|>"; "<|endoftext|>"] |}.

Definition error_detail (e : string) : string := "处理请求时发生错误: " +:+ e.

(** The [async for] of [chat]: the first finished output, [None] when the
    generator is exhausted before one. *)
Fixpoint wait_final (results_generator : list step) : result (option RequestOutput) :=
  match results_generator with
  | [] => Ok None
  | Throw e :: _ => Raise e
  | Yield request_output :: rest =>
      if request_output.(finished) then Ok (Some request_output) else wait_final rest
  end.

(** [StreamResponse] and the frames of the event stream. *)
Record Choice := {
  index : Z;
  delta_content : option string;
  finish_reason : option string
}.

Record StreamResponse := {
  id : string;
  object : string;
  created : Z;
  chunk_model : string;
  choices : list Choice
}.

Inductive frame :=
  | Data (chunk : StreamResponse)
  | DONE.

Section Handlers.
(** The constructor of [SamplingParams] belongs to the engine library and
    may reject its arguments by raising. *)
Variable verify_args : SamplingParams -> result unit.

(** [chat]. The [HTTPException(500)] raised inside the [try] when no output
    finished is caught by the generic handler like any other exception, and
    its [str] goes into the detail. *)
Definition chat (engine : option Engine) (request_id : string)
    (start_time end_time : float) (request : ChatRequest)
  : list call * http ChatResponse :=
  match engine with
  | None => ([], HTTPException 503 "VLLM引擎未初始化")
  | Some engine =>
      let input_text := Formatter.format_chat_messages request.(messages) in
      let sampling_params := sampling_params_of request in
      match verify_args sampling_params with
      | Raise e => ([], HTTPException 500 (error_detail e))
      | Ok _ =>
          let calls := [CallGenerate input_text sampling_params request_id] in
          let results_generator :=
            engine.(generate) input_text sampling_params request_id in
          match wait_final results_generator with
          | Raise e => (calls, HTTPException 500 (error_detail e))
          | Ok None => (calls, HTTPException 500 (error_detail "500: 生成失败"))
          | Ok (Some final_output) =>
              let response_text := final_output.(text) in
              let input_tokens := Z.of_nat (length final_output.(prompt_token_ids)) in
              let output_tokens := Z.of_nat (length final_output.(token_ids)) in
              let total_tokens := input_tokens + output_tokens in
              let processing_time := (end_time - start_time)%float in
              (calls,
               Respond {| response := response_text;
                          usage := {| prompt_tokens := input_tokens;
                                      completion_tokens := output_tokens;
                                      total_tokens := total_tokens |};
                          model := MODEL_NAME;
                          processing_time := processing_time |})
          end
      end
  end.

(** [generate_stream]: the frames it yields, and the exception that cut
    the stream short, if any. [now i] is [int(time.time())] when the
    [i]-th output is handled. *)
Fixpoint generate_stream (request_id : string) (now : nat -> Z) (i : nat)
    (results_generator : list step) : list frame * option string :=
  match results_generator with
  | [] => ([], None)
  | Throw e :: _ => ([], Some e)
  | Yield request_output :: rest =>
      if negb request_output.(finished) then
        let chunk :=
          {| id := request_id;
             object := "chat.completion.chunk";
             created := now i;
             chunk_model := MODEL_NAME;
             choices := [ {| index := 0;
                             delta_content := Some request_output.(text);
                             finish_reason := None |} ] |} in
        let '(frames, exn) := generate_stream request_id now (S i) rest in
        (Data chunk :: frames, exn)
      else
        let final_chunk :=
          {| id := request_id;
             object := "chat.completion.chunk";
             created := now i;
             chunk_model := MODEL_NAME;
             choices := [ {| index := 0;
                             delta_content := None;
                             finish_reason := Some "stop" |} ] |} in
        ([Data final_chunk; DONE], None)
  end.

(** [chat_stream]: the body of the [StreamingResponse] it returns. *)
Definition chat_stream (engine : option Engine) (request_id : string)
    (now : nat -> Z) (request : ChatRequest)
  : list call * http (list frame * option string) :=
  match engine with
  | None => ([], HTTPException 503 "VLLM引擎未初始化")
  | Some engine =>
      let input_text := Formatter.format_chat_messages request.(messages) in
      let sampling_params := sampling_params_of request in
      match verify_args sampling_params with
      | Raise e => ([], HTTPException 500 (error_detail e))
      | Ok _ =>
          let results_generator :=
            engine.(generate) input_text sampling_params request_id in
          ([CallGenerate input_text sampling_params request_id],
           Respond (generate_stream request_id now 0 results_generator))
      end
  end.
End Handlers.

(** What a consumer of the stream reconstructs: the [delta.content] of the
    frames in emission order, up to the [[DONE]] sentinel. *)
Fixpoint delta_texts (frames : list frame) : list string :=
  match frames with
  | [] => []
  | DONE :: _ => []
  | Data chunk :: rest =>
      match chunk.(choices) with
      | choice :: _ => default "" choice.(delta_content) :: delta_texts rest
      | [] => delta_texts rest
      end
  end.

Definition reconstruct (frames : list frame) : string :=
  String.concat "" (delta_texts frames).

End VllmServer.

(** ** monitor.py *)

Module Monitor.

(** A JSON document as [json.load] returns it. Numbers are doubles (the
    monitor writes floats; an integer literal stands for the double of the
    same value); a dictionary keeps the order of its keys. *)
Inductive json :=
  | JNull
  | JBool (b : bool)
  | JNum (f : float)
  | JStr (s : string)
  | JList (l : list json)
  | JDict (d : list (string * json)).

(** [x.get(k, dflt)]: only a dictionary has [get]. *)
Definition get_or (x : json) (k : string) (dflt : json) : result json :=
  match x with
  | JDict d => Ok (default dflt (dict_get k d))
  | _ => Raise "AttributeError: object has no attribute 'get'"
  end.

(** The number a value stands for in an order comparison with a number;
    anything but a number or a boolean raises [TypeError]. *)
Definition as_number (v : json) : result float :=
  match v with
  | JNum f => Ok f
  | JBool b => Ok (if b then 1%float else 0%float)
  | _ => Raise "TypeError: '>' not supported"
  end.

(** The alerts of [check_alerts]; each stands for its formatted message and
    carries the value the message prints. *)
Inductive alert :=
  | CpuHigh (percent : float)
  | MemoryHigh (percent : float)
  | DiskHigh (percent : float)
  | GpuMemoryHigh (gpu_id : string) (percent : float)
  | ApiStatus (status : json)
  | ResponseSlow (seconds : float).

(** [v > bound], giving [alert v] when it holds. *)
Definition above (bound : float) (mk : float -> alert) (v : json) : result (list alert) :=
  n ← as_number v;
  Ok (if (bound <? n)%float then [mk n] else []).

(** The body of the loop over [gpu.items()]. *)
Definition gpu_alert (gpu_id : string) (gpu_info : json) : result (list alert) :=
  match gpu_info with
  | JDict info =>
      match dict_get "memory_percent" info with
      | Some v => above 95 (GpuMemoryHigh gpu_id) v
      | None => Ok []
      end
  | _ => Ok []
  end.

Fixpoint gpu_alerts (items : list (string * json)) : result (list alert) :=
  match items with
  | [] => Ok []
  | (gpu_id, gpu_info) :: rest =>
      here ← gpu_alert gpu_id gpu_info;
      others ← gpu_alerts rest;
      Ok (here ++ others)
  end.

(** [gpu.items()]: only a dictionary has [items]. *)
Definition items_of (gpu : json) : result (list (string * json)) :=
  match gpu with
  | JDict items => Ok items
  | _ => Raise "AttributeError: object has no attribute 'items'"
  end.

(** Lines 141-161. *)
Definition system_alerts (metrics : list (string * json)) : result (list alert) :=
  match dict_get "system" metrics with
  | None => Ok []
  | Some system =>
      cpu ← get_or system "cpu_percent" (JNum 0);
      a_cpu ← above 90 CpuHigh cpu;
      memory ← get_or system "memory" (JDict []);
      memory_percent ← get_or memory "percent" (JNum 0);
      a_memory ← above 90 MemoryHigh memory_percent;
      disk ← get_or system "disk" (JDict []);
      disk_percent ← get_or disk "percent" (JNum 0);
      a_disk ← above 90 DiskHigh disk_percent;
      gpu ← get_or system "gpu" (JDict []);
      items ← items_of gpu;
      a_gpu ← gpu_alerts items;
      Ok (a_cpu ++ a_memory ++ a_disk ++ a_gpu)
  end.

(** [x != "healthy"]. *)
Definition is_healthy (x : option json) : bool :=
  match x with
  | Some (JStr s) => bool_decide (s = "healthy")
  | _ => false
  end.

(** Lines 164-167. [api.get("status")] is [None] without the key, and the
    message prints [api.get('status', 'unknown')]. *)
Definition api_alerts (metrics : list (string * json)) : result (list alert) :=
  match dict_get "api_health" metrics with
  | None => Ok []
  | Some (JDict api) =>
      if is_healthy (dict_get "status" api) then Ok []
      else Ok [ApiStatus (default (JStr "unknown") (dict_get "status" api))]
  | Some _ => Raise "AttributeError: object has no attribute 'get'"
  end.

(** Lines 170-173. *)
Definition performance_alerts (metrics : list (string * json)) : result (list alert) :=
  match dict_get "performance" metrics with
  | None => Ok []
  | Some perf =>
      response_time ← get_or perf "response_time" (JNum 0);
      above 30 ResponseSlow response_time
  end.

Definition check_alerts (metrics : list (string * json)) : result (list alert) :=
  a_system ← system_alerts metrics;
  a_api ← api_alerts metrics;
  a_performance ← performance_alerts metrics;
  Ok (a_system ++ a_api ++ a_performance).

(** [get_api_health]: the decoded body on status 200, an error record
    otherwise; [probe] is the outcome of the GET (status code and body). *)
Definition get_api_health (probe : result (Z * json)) : json :=
  match probe with
  | Ok (status_code, body) =>
      if status_code =? 200 then body
      else JDict [("error", JStr ("HTTP " +:+ pretty status_code))]
  | Raise e => JDict [("error", JStr e)]
  end.

(** *** The record of a tick *)

(** What the monitor reads of a device and of the host. *)
Record GpuReading := {
  name : string;
  memoryUsed : float;
  memoryTotal : float;
  memoryUtil : float;
  temperature : float;
  load : float
}.

Record HostReading := {
  cpu_percent : float;
  memory_total : float;
  memory_available : float;
  memory_percent : float;
  memory_used : float;
  disk_total : float;
  disk_used : float;
  disk_free : float
}.

(** The inner [try] of [get_system_metrics]. *)
Definition gpu_info_of (getGPUs : result (list GpuReading)) : json :=
  match getGPUs with
  | Ok gpus =>
      JDict (imap (fun i gpu =>
                     ("gpu_" +:+ pretty i,
                      JDict [ ("name", JStr gpu.(name));
                              ("memory_used", JNum gpu.(memoryUsed));
                              ("memory_total", JNum gpu.(memoryTotal));
                              ("memory_percent", JNum (gpu.(memoryUtil) * 100)%float);
                              ("temperature", JNum gpu.(temperature));
                              ("utilization", JNum (gpu.(load) * 100)%float) ]))
                  gpus)
  | Raise e => JDict [("error", JStr e)]
  end.

(** [get_system_metrics]: a failed host reading, or a disk of size zero,
    leaves an error record. *)
Definition get_system_metrics (now : string) (host : result HostReading)
    (getGPUs : result (list GpuReading)) : json :=
  match host with
  | Raise e => JDict [("error", JStr e)]
  | Ok h =>
      if (h.(disk_total) =? 0)%float then JDict [("error", JStr "division by zero")]
      else
        JDict [ ("timestamp", JStr now);
                ("cpu_percent", JNum h.(cpu_percent));
                ("memory", JDict [ ("total", JNum h.(memory_total));
                                   ("available", JNum h.(memory_available));
                                   ("percent", JNum h.(memory_percent));
                                   ("used", JNum h.(memory_used)) ]);
                ("disk", JDict [ ("total", JNum h.(disk_total));
                                 ("used", JNum h.(disk_used));
                                 ("free", JNum h.(disk_free));
                                 ("percent",
                                  JNum (h.(disk_used) / h.(disk_total) * 100)%float) ]);
                ("gpu", gpu_info_of getGPUs) ]
  end.

(** [test_api_performance]: [probe] is the outcome of the POST and [elapsed]
    the measured round trip. *)
Definition test_api_performance (probe : result (Z * json)) (elapsed : float) : json :=
  match probe with
  | Raise e => JDict [("error", JStr e)]
  | Ok (status_code, body) =>
      if status_code =? 200 then
        let fields :=
          processing_time ← get_or body "processing_time" (JNum 0);
          usage ← get_or body "usage" (JDict []);
          tokens_generated ← get_or usage "completion_tokens" (JNum 0);
          Ok [ ("status", JStr "success");
               ("response_time", JNum elapsed);
               ("processing_time", processing_time);
               ("tokens_generated", tokens_generated) ] in
        match fields with
        | Ok fields => JDict fields
        | Raise e => JDict [("error", JStr e)]
        end
      else JDict [("error", JStr ("HTTP " +:+ pretty status_code))]
  end.

(** [generate_report]. *)
Definition generate_report (now : string) (system_metrics api_health performance : json)
  : list (string * json) :=
  [ ("timestamp", JStr now);
    ("system", system_metrics);
    ("api_health", api_health);
    ("performance", performance) ].

(** *** The rolling log *)

(** What [open] and [json.load] find under the file name. *)
Inductive file_state :=
  | Missing
  | Undecodable
  | Unreadable (e : string)
  | Document (data : json).

(** The inner [try]: a missing or undecodable file starts an empty log. *)
Definition read_log (file : file_state) : result json :=
  match file with
  | Document data => Ok data
  | Missing | Undecodable => Ok (JDict [("records", JList [])])
  | Unreadable e => Raise e
  end.

(** [save_metrics_to_file]: the document it writes, or the exception that
    the outer handler logs, leaving the file as it was. *)
Definition save_metrics_to_file (metrics : json) (file : file_state) : result json :=
  data ← read_log file;
  match data with
  | JDict d =>
      match dict_get "records" d with
      | Some (JList records) =>
          let records := records ++ [metrics] in
          let records :=
            if (1000 <? length records)%nat
            then drop (length records - 1000)%nat records
            else records in
          Ok (JDict (dict_set "records" (JList records) d))
      | Some _ => Raise "AttributeError: object has no attribute 'append'"
      | None => Raise "KeyError: 'records'"
      end
  | _ => Raise "TypeError: indices must be integers"
  end.

Definition file_after_save (file : file_state) (metrics : json) : file_state :=
  match save_metrics_to_file metrics file with
  | Ok data => Document data
  | Raise _ => file
  end.

(** The file after the saves of a run of ticks. *)
Definition file_after_ticks (file : file_state) (ticks : list json) : file_state :=
  foldl file_after_save file ticks.

(** The records a save would start from: [None] when the save raises. *)
Definition stored_records (file : file_state) : option (list json) :=
  match file with
  | Missing | Undecodable => Some []
  | Unreadable _ => None
  | Document (JDict d) =>
      match dict_get "records" d with
      | Some (JList records) => Some records
      | _ => None
      end
  | Document _ => None
  end.

(** The most recent [n] elements of a list, in order. *)
Definition most_recent {A} (n : nat) (l : list A) : list A :=
  drop (length l - n)%nat l.

(** *** The summary report *)

Record stats := {
  mean : float;
  highest : float;
  lowest : float
}.

(** [sum], [max] and [min] of the builtins, and [len] as a divisor. *)
Definition py_sum (values : list float) : float :=
  foldl PrimFloat.add 0%float values.

Definition py_max (first : float) (rest : list float) : float :=
  foldl (fun best v => if (best <? v)%float then v else best) first rest.

Definition py_min (first : float) (rest : list float) : float :=
  foldl (fun best v => if (v <? best)%float then v else best) first rest.

Definition float_of_nat (n : nat) : float :=
  PrimFloat.of_uint63 (Uint63.of_Z (Z.of_nat n)).

(** The three printed lines of a non-empty list of values. *)
Definition stats_of (values : list float) : option stats :=
  match values with
  | [] => None
  | v :: rest =>
      Some {| mean := (py_sum values / float_of_nat (length values))%float;
              highest := py_max v rest;
              lowest := py_min v rest |}
  end.

(** A list comprehension whose body may raise. *)
Fixpoint traverse {A B} (f : A -> result B) (l : list A) : result (list B) :=
  match l with
  | [] => Ok []
  | x :: l' =>
      y ← f x;
      ys ← traverse f l';
      Ok (y :: ys)
  end.

Definition cpu_of (r : json) : result json :=
  system ← get_or r "system" (JDict []);
  get_or system "cpu_percent" (JNum 0).

Definition memory_of (r : json) : result json :=
  system ← get_or r "system" (JDict []);
  memory ← get_or system "memory" (JDict []);
  get_or memory "percent" (JNum 0).

Definition response_time_of (r : json) : result json :=
  performance ← get_or r "performance" (JDict []);
  get_or performance "response_time" (JNum 0).

Definition status_of (r : json) : result json :=
  api_health ← get_or r "api_health" (JDict []);
  get_or api_health "status" (JStr "unknown").

(** [[v for v in values if v > 0]]. *)
Fixpoint positive_values (values : list json) : result (list float) :=
  match values with
  | [] => Ok []
  | v :: values' =>
      n ← as_number v;
      rest ← positive_values values';
      Ok (if (0 <? n)%float then n :: rest else rest)
  end.

(** The keys of [status_counts]: a status must be hashable, and numbers
    and booleans that compare equal are one key. *)
Inductive key :=
  | KNone
  | KNum (f : float)
  | KStr (s : string).

Definition hashable (v : json) : result key :=
  match v with
  | JNull => Ok KNone
  | JBool b => Ok (KNum (if b then 1%float else 0%float))
  | JNum f => Ok (KNum f)
  | JStr s => Ok (KStr s)
  | _ => Raise "TypeError: unhashable type"
  end.

Definition key_eqb (a b : key) : bool :=
  match a, b with
  | KNone, KNone => true
  | KNum f, KNum g => PrimFloat.eqb f g
  | KStr s, KStr t => bool_decide (s = t)
  | _, _ => false
  end.

(** [status_counts[status] = status_counts.get(status, 0) + 1]. *)
Fixpoint count_status (status : key) (status_counts : list (key * nat)) : list (key * nat) :=
  match status_counts with
  | [] => [(status, 1%nat)]
  | (k, n) :: rest =>
      if key_eqb status k then (k, S n) :: rest
      else (k, n) :: count_status status rest
  end.

Definition count_statuses (api_statuses : list key) : list (key * nat) :=
  foldl (fun status_counts status => count_status status status_counts) [] api_statuses.

(** [count/total_records*100]. *)
Definition percentage (count total_records : nat) : float :=
  (float_of_nat count / float_of_nat total_records * 100)%float.

(** What the report prints. *)
Record summary := {
  total_records : nat;
  time_range : json * json;
  cpu : option stats;
  memory : option stats;
  response_time : option stats;
  status_lines : list (key * nat * float)
}.

(** Lines 276-319, for the non-empty list [records]. *)
Definition summarize (records : list json) : result summary :=
  let total_records := length records in
  cpu_values ← traverse cpu_of records;
  memory_values ← traverse memory_of records;
  response_times ← traverse response_time_of records;
  cpu_values ← positive_values cpu_values;
  memory_values ← positive_values memory_values;
  response_times ← positive_values response_times;
  first ← match head records with
          | Some r => get_or r "timestamp" (JStr "unknown")
          | None => Raise "IndexError: list index out of range"
          end;
  final ← match last records with
          | Some r => get_or r "timestamp" (JStr "unknown")
          | None => Raise "IndexError: list index out of range"
          end;
  api_statuses ← traverse status_of records;
  api_statuses ← traverse hashable api_statuses;
  let status_counts := count_statuses api_statuses in
  Ok {| total_records := total_records;
        time_range := (first, final);
        cpu := stats_of cpu_values;
        memory := stats_of memory_values;
        response_time := stats_of response_times;
        status_lines :=
          map (fun '(status, count) => (status, count, percentage count total_records))
              status_counts |}.

(** [bool(x)] of a JSON value. *)
Definition truthy (v : json) : bool :=
  match v with
  | JNull => false
  | JBool b => b
  | JNum f => negb (PrimFloat.eqb f 0%float)
  | JStr s => negb (bool_decide (s = ""))
  | JList l => negb (bool_decide (length l = 0%nat))
  | JDict d => negb (bool_decide (length d = 0%nat))
  end.

Inductive report :=
  | NoData
  | Printed (s : summary)
  | Failed (e : string).

(** [generate_summary_report]: what it prints when it reaches the end, or
    the failure line of its handler. *)
Definition generate_summary_report (file : file_state) : report :=
  match file with
  | Missing => Failed "FileNotFoundError"
  | Undecodable => Failed "JSONDecodeError"
  | Unreadable e => Failed e
  | Document data =>
      match get_or data "records" (JList []) with
      | Raise e => Failed e
      | Ok records =>
          if negb (truthy records) then NoData
          else
            match records with
            | JList records =>
                match summarize records with
                | Ok s => Printed s
                | Raise e => Failed e
                end
            | _ => Failed "TypeError or AttributeError: records is not a list of records"
            end
      end
  end.

End Monitor.

(** ** monitor.py: the log line and the loop *)

Module MonitorLoop.
Import Monitor.

(** What [log_metrics] prints: the five figures of its line. *)
Record log_line := {
  logged_cpu : float;
  logged_memory : float;
  logged_gpu_memory : float;
  logged_api_status : json;
  logged_response_time : float
}.

(** [max(gpu_memory, v)]: the second argument is returned only when it
    compares above the first. *)
Definition max_with (gpu_memory : float) (v : json) : result float :=
  n ← as_number v;
  Ok (if (gpu_memory <? n)%float then n else gpu_memory).

(** The loop over [gpu_info.items()]. *)
Fixpoint max_gpu_memory (gpu_memory : float) (items : list (string * json)) : result float :=
  match items with
  | [] => Ok gpu_memory
  | (_, JDict gpu_data) :: rest =>
      match dict_get "memory_percent" gpu_data with
      | Some v =>
          gpu_memory ← max_with gpu_memory v;
          max_gpu_memory gpu_memory rest
      | None => max_gpu_memory gpu_memory rest
      end
  | _ :: rest => max_gpu_memory gpu_memory rest
  end.

(** A format specification [:.1f] or [:.2f] accepts a number only. *)
Definition format_fixed (v : json) : result float :=
  match v with
  | JNum f => Ok f
  | JBool b => Ok (if b then 1%float else 0%float)
  | _ => Raise "TypeError: unsupported format string"
  end.

(** [log_metrics]. *)
Definition log_metrics (metrics : list (string * json)) : result log_line :=
  let system := default (JDict []) (dict_get "system" metrics) in
  cpu ← get_or system "cpu_percent" (JNum 0);
  memory ← get_or system "memory" (JDict []);
  memory ← get_or memory "percent" (JNum 0);
  gpu_info ← get_or system "gpu" (JDict []);
  gpu_memory ← match gpu_info with
               | JDict items => max_gpu_memory 0 items
               | _ => Ok 0%float
               end;
  let api_health := default (JDict []) (dict_get "api_health" metrics) in
  api_status ← get_or api_health "status" (JStr "unknown");
  let performance := default (JDict []) (dict_get "performance" metrics) in
  response_time ← get_or performance "response_time" (JNum 0);
  cpu ← format_fixed cpu;
  memory ← format_fixed memory;
  response_time ← format_fixed response_time;
  Ok {| logged_cpu := cpu;
        logged_memory := memory;
        logged_gpu_memory := gpu_memory;
        logged_api_status := api_status;
        logged_response_time := response_time |}.

(** What one pass of the loop reads from the outside: the two clock
    readings, the host and device probes, and the two HTTP probes. *)
Record tick := {
  now_system : string;
  now_report : string;
  host : result HostReading;
  getGPUs : result (list GpuReading);
  health_probe : result (Z * json);
  chat_probe : result (Z * json);
  elapsed : float
}.

(** [monitor.generate_report()] on the readings of a tick. *)
Definition report_of (t : tick) : list (string * json) :=
  generate_report t.(now_report)
    (get_system_metrics t.(now_system) t.(host) t.(getGPUs))
    (get_api_health t.(health_probe))
    (test_api_performance t.(chat_probe) t.(elapsed)).

(** How the loop ends: the operator interrupts it, here after the last
    listed tick, or an exception escapes an iteration. *)
Inductive ending :=
  | Interrupted
  | Crashed (e : string).

Record run := {
  file : file_state;
  lines : list log_line;
  warnings : list (list alert);
  ended : ending
}.

(** [run_monitoring_loop]: per tick the report, the log line, the save and
    the alerts, a warning being logged when the list of alerts is not
    empty. *)
Fixpoint run_monitoring_loop (ticks : list tick) (log : file_state) : run :=
  match ticks with
  | [] => {| file := log; lines := []; warnings := []; ended := Interrupted |}
  | t :: rest =>
      let metrics := report_of t in
      match log_metrics metrics with
      | Raise e => {| file := log; lines := []; warnings := []; ended := Crashed e |}
      | Ok line =>
          let log := file_after_save log (JDict metrics) in
          match check_alerts metrics with
          | Raise e => {| file := log; lines := [line]; warnings := []; ended := Crashed e |}
          | Ok alerts =>
              let later := run_monitoring_loop rest log in
              {| file := later.(file);
                 lines := line :: later.(lines);
                 warnings := (if alerts is [] then [] else [alerts]) ++ later.(warnings);
                 ended := later.(ended) |}
          end
      end
  end.

End MonitorLoop.

(** ** api_client_example.py and test_client.py: the clients *)

Module Client.

(** [_stream_chat] on the body of the response. Each server frame stands for
    its line [data: ...]; the JSON text of a chunk is read back as the chunk.
    The sentinel is skipped, and so is a chunk without choices or whose
    [delta] has no, or an empty, [content]. *)
Fixpoint stream_chunks (frames : list VllmServer.frame) : list string :=
  match frames with
  | [] => []
  | VllmServer.DONE :: rest => stream_chunks rest
  | VllmServer.Data chunk :: rest =>
      match chunk.(VllmServer.choices) with
      | choice :: _ =>
          let content := default "" choice.(VllmServer.delta_content) in
          if decide (content = "") then stream_chunks rest else content :: stream_chunks rest
      | [] => stream_chunks rest
      end
  end.

(** [_stream_chat]: [post] is the outcome of the POST and of
    [raise_for_status]; a stream cut short raises in [iter_lines]. *)
Definition _stream_chat (post : result (list VllmServer.frame * option string)) : list string :=
  match post with
  | Raise e => ["Error: " +:+ e]
  | Ok (frames, None) => stream_chunks frames
  | Ok (frames, Some e) => stream_chunks frames ++ ["Error: " +:+ e]
  end.

(** One line typed at the prompt of [interactive_chat], after [strip]: a quit
    word, nothing, or a text, the latter with the outcome of [client.chat]:
    the [response] of the server or the error record of the client. *)
Inductive reply :=
  | Answer (response : string)
  | Error (e : string).

Inductive entry :=
  | Quit
  | Blank
  | Say (user_input : string) (r : reply).

Definition message (role content : string) : gmap string string :=
  {[ "role" := role; "content" := content ]}.

(** The body of the [while] loop for a text: the history after it. *)
Definition chat_turn (messages : list (gmap string string)) (user_input : string) (r : reply)
  : list (gmap string string) :=
  let messages := messages ++ [message "user" user_input] in
  match r with
  | Error _ => messages
  | Answer response =>
      let messages := messages ++ [message "assistant" response] in
      if (10 <? length messages)%nat
      then drop (length messages - 10)%nat messages
      else messages
  end.

(** [interactive_chat] from a history: the conversations sent to the server,
    in order, and the history when the loop is left. *)
Fixpoint interactive_chat (messages : list (gmap string string)) (typed : list entry)
  : list (list (gmap string string)) * list (gmap string string) :=
  match typed with
  | [] => ([], messages)
  | Quit :: _ => ([], messages)
  | Blank :: rest => interactive_chat messages rest
  | Say user_input r :: rest =>
      let sent := messages ++ [message "user" user_input] in
      let '(requests, final) := interactive_chat (chat_turn messages user_input r) rest in
      (sent :: requests, final)
  end.

End Client.

(** ** start_server.py: the launcher *)

Module Launcher.

(** What the three checks find. *)
Record environment := {
  dependencies : bool;
  model_found : bool;
  vllm_installed : bool
}.

(** The checks made and the servers started, in order. *)
Inductive event :=
  | CheckDependencies
  | CheckModel
  | CheckVllm
  | StartTransformers
  | StartVllm.

(** What [input] gives, after [strip]: a line, or the interrupt key. *)
Inductive typed :=
  | Line (choice : string)
  | KeyboardInterrupt.

(** The [while True] of [interactive_start]; running out of input raises
    [EOFError], which nothing catches. *)
Fixpoint choose (vllm_available : bool) (inputs : list typed) : result (list event) :=
  match inputs with
  | [] => Raise "EOFError"
  | KeyboardInterrupt :: _ => Ok []
  | Line choice :: rest =>
      if decide (choice = "1") then
        if vllm_available then Ok [StartVllm] else choose vllm_available rest
      else if decide (choice = "2") then Ok [StartTransformers]
      else if decide (choice = "3") then Ok []
      else choose vllm_available rest
  end.

(** The events up to an exception are kept with it. *)
Definition interactive_start (env : environment) (inputs : list typed)
  : list event * option string :=
  if negb env.(dependencies) then ([CheckDependencies], None)
  else if negb env.(model_found) then ([CheckDependencies; CheckModel], None)
  else
    let vllm_available := env.(vllm_installed) in
    match choose vllm_available inputs with
    | Ok started => ([CheckDependencies; CheckModel; CheckVllm] ++ started, None)
    | Raise e => ([CheckDependencies; CheckModel; CheckVllm], Some e)
    end.

Inductive engine :=
  | Transformers
  | Vllm.

(** The parsed command line. *)
Record arguments := {
  arg_engine : option engine;
  arg_check : bool
}.

(** [main]. *)
Definition main (args : arguments) (env : environment) (inputs : list typed)
  : list event * option string :=
  if args.(arg_check) then ([CheckDependencies; CheckVllm; CheckModel], None)
  else
    match args.(arg_engine) with
    | Some chosen =>
        if negb env.(dependencies) then ([CheckDependencies], None)
        else if negb env.(model_found) then ([CheckDependencies; CheckModel], None)
        else
          match chosen with
          | Vllm =>
              if env.(vllm_installed)
              then ([CheckDependencies; CheckModel; CheckVllm; StartVllm], None)
              else ([CheckDependencies; CheckModel; CheckVllm], None)
          | Transformers => ([CheckDependencies; CheckModel; StartTransformers], None)
          end
    | None => interactive_start env inputs
    end.

End Launcher.

(** ** model_download.py: the model table and the checks on a directory *)

Module Downloader.

Definition SUPPORTED_MODELS : list (string * string) :=
  [ ("qwen2.5-7b", "Qwen/Qwen2.5-7B-Instruct");
    ("qwen2.5-14b", "Qwen/Qwen2.5-14B-Instruct");
    ("qwen2.5-32b", "Qwen/Qwen2.5-32B-Instruct");
    ("qwen2.5-72b", "Qwen/Qwen2.5-72B-Instruct");
    ("qwen2-7b", "Qwen/Qwen2-7B-Instruct");
    ("qwen2-14b", "Qwen/Qwen2-14B-Instruct");
    ("qwen2-32b", "Qwen/Qwen2-32B-Instruct");
    ("qwen2-72b", "Qwen/Qwen2-72B-Instruct") ].

Definition model_sizes : list (string * string) :=
  [ ("7b", "~14GB"); ("14b", "~28GB"); ("32b", "~64GB"); ("72b", "~144GB") ].

(** The characters [-] and [/]. *)
Definition dash : Ascii.ascii := Ascii.ascii_of_nat 45.
Definition slash : Ascii.ascii := Ascii.ascii_of_nat 47.

(** [s.split(sep)[-1]]: what follows the last separator, the whole string
    when there is none. *)
Fixpoint split_last (sep : Ascii.ascii) (s : string) : string :=
  match s with
  | EmptyString => EmptyString
  | String c rest =>
      if existsb (Ascii.eqb sep) (String.list_ascii_of_string rest)
      then split_last sep rest
      else if Ascii.eqb c sep then rest
      else s
  end.

(** [get_model_info]; [local_dir] is the directory of the model under the
    base directory, [local_path] being [base_dir / local_dir]. *)
Record model_info := {
  model_name : string;
  local_dir : string;
  estimated_size : string;
  model_key : string
}.

Definition get_model_info (key : string) : result model_info :=
  match dict_get key SUPPORTED_MODELS with
  | None => Raise ("不支持的模型: " +:+ key)
  | Some name =>
      let size_key := split_last dash key in
      Ok {| model_name := name;
            local_dir := split_last slash name;
            estimated_size := default "未知" (dict_get size_key model_sizes);
            model_key := key |}
  end.

(** [name.endswith(suffix)]. *)
Definition endswith (suffix name : string) : bool :=
  let n := String.length name in
  let m := String.length suffix in
  (m <=? n)%nat && String.eqb (String.substring (n - m) m name) suffix.

Definition is_weights (name : string) : bool :=
  endswith ".bin" name || endswith ".safetensors" name.

(** What lies under a name of the base directory: a file, or a directory
    with the names it lists. *)
Inductive node :=
  | File
  | Dir (entries : list string).

Definition required_files : list string :=
  ["config.json"; "tokenizer.json"; "tokenizer_config.json"].

(** [verify_model] on the content of the base directory: a path below a
    file does not exist, and a file cannot be listed. *)
Definition verify_model (base : list (string * node)) (key : string) : result bool :=
  info ← get_model_info key;
  match dict_get info.(local_dir) base with
  | None => Ok false
  | Some File =>
      Ok false
  | Some (Dir entries) =>
      if forallb (fun file => bool_decide (file ∈ entries)) required_files
      then Ok (negb (bool_decide (filter (fun f => is_weights f = true) entries = [])))
      else Ok false
  end.

(** [list_downloaded_models]: the lines it prints, a name with whether it is
    shown as complete, one per directory of the base directory. *)
Fixpoint list_downloaded_models (base : list (string * node)) : list (string * bool) :=
  match base with
  | [] => []
  | (item, File) :: rest => list_downloaded_models rest
  | (item, Dir entries) :: rest =>
      (item, existsb is_weights entries) :: list_downloaded_models rest
  end.

End Downloader.

(** ** Predicates of the statements *)

Module Statements.

(** The token accounting of a response adds up, with non-negative addends. *)
Definition usage_adds_up (u : Usage) : Prop :=
  u.(total_tokens) = u.(prompt_tokens) + u.(completion_tokens)
  /\ 0 ≤ u.(prompt_tokens) /\ 0 ≤ u.(completion_tokens).

(** The contract of a causal language model: the generated sequence starts
    with the prompt, so it is at least as long. *)
Definition extends_prompt (m : ModelServer.Model) : Prop :=
  forall input_ids generation_kwargs outputs,
    m.(ModelServer.generate) input_ids generation_kwargs = Ok outputs ->
    (length input_ids ≤ length outputs)%nat.

(** The texts of the outputs that are not finished, up to the first finished
    one or the first failure. *)
Fixpoint unfinished_texts (results_generator : list VllmServer.step) : list string :=
  match results_generator with
  | VllmServer.Yield o :: rest =>
      if o.(VllmServer.finished) then [] else o.(VllmServer.text) :: unfinished_texts rest
  | _ => []
  end.

(** The domains the specification gives the overrides: a temperature is not
    negative and [top_p] lies in (0, 1]. *)
Definition out_of_domain (request : ChatRequest) : bool :=
  match request.(temperature) with
  | Some t => (t <? 0)%float
  | None => false
  end
  || match request.(top_p) with
     | Some p => negb ((0 <? p)%float && (p <=? 1)%float)
     | None => false
     end.

(** A handler outcome that is a client error raised before any call on the
    backend. *)
Definition rejected_before_backend {C A} (out : list C * http A) : Prop :=
  out.1 = []
  /\ exists status_code detail,
       out.2 = HTTPException status_code detail /\ 400 ≤ status_code < 500.

(** The generator reaches a finished output before it raises or ends. *)
Fixpoint completes (results_generator : list VllmServer.step) : bool :=
  match results_generator with
  | VllmServer.Yield o :: rest =>
      if o.(VllmServer.finished) then true else completes rest
  | _ => false
  end.

(** A content chunk of the stream, and its closing chunk. *)
Definition content_chunk (f : VllmServer.frame) : Prop :=
  exists chunk text,
    f = VllmServer.Data chunk
    /\ chunk.(VllmServer.choices)
       = [ {| VllmServer.index := 0;
              VllmServer.delta_content := Some text;
              VllmServer.finish_reason := None |} ].

Definition closing_chunk (f : VllmServer.frame) : Prop :=
  exists chunk,
    f = VllmServer.Data chunk
    /\ chunk.(VllmServer.choices)
       = [ {| VllmServer.index := 0;
              VllmServer.delta_content := None;
              VllmServer.finish_reason := Some "stop" |} ].

(** An HTTP probe that raised or was answered with another status than 200. *)
Definition probe_failed (probe : result (Z * Monitor.json)) : bool :=
  match probe with
  | Ok (status_code, _) => negb (status_code =? 200)
  | Raise _ => true
  end.

Definition is_dict (v : Monitor.json) : bool :=
  match v with
  | Monitor.JDict _ => true
  | _ => false
  end.

(** A chat probe answered with status 200 and a body the monitor can read: a
    dictionary whose [usage], when present, is a dictionary. *)
Definition probe_readable (probe : result (Z * Monitor.json)) : bool :=
  match probe with
  | Ok (status_code, Monitor.JDict body) =>
      (status_code =? 200)
      && match dict_get "usage" body with
         | Some usage => is_dict usage
         | None => true
         end
  | _ => false
  end.

(** A line of [interactive_chat] that did not end in an error reply. *)
Definition answered (e : Client.entry) : bool :=
  match e with
  | Client.Say _ (Client.Error _) => false
  | _ => true
  end.

Definition is_start (e : Launcher.event) : bool :=
  match e with
  | Launcher.StartTransformers | Launcher.StartVllm => true
  | _ => false
  end.


(** An alert about the API status. *)
Definition is_api_alert (a : Monitor.alert) : bool :=
  match a with
  | Monitor.ApiStatus _ => true
  | _ => false
  end.

(** The positive values a report aggregates for one field of the records:
    the comprehension, then the filter. *)
Definition positive_of (extract : Monitor.json -> result Monitor.json)
    (records : list Monitor.json) : result (list float) :=
  values ← Monitor.traverse extract records;
  Monitor.positive_values values.

(** The field of a record is read as a number that is not above zero: a
    zero, a missing field (read as the default 0), a negative number. *)
Definition not_positive (extract : Monitor.json -> result Monitor.json)
    (r : Monitor.json) : Prop :=
  exists v n,
    extract r = Ok v /\ Monitor.as_number v = Ok n /\ (0 <? n)%float = false.

(** The mean, maximum and minimum a report prints for one field. *)
Definition aggregate (extract : Monitor.json -> result Monitor.json)
    (records : list Monitor.json) : result (option Monitor.stats) :=
  values ← positive_of extract records;
  Ok (Monitor.stats_of values).

(** A record every line of the report can read: a dictionary whose three
    aggregated fields are numbers and whose status is hashable. *)
Definition readable (r : Monitor.json) : Prop :=
  (exists d, r = Monitor.JDict d)
  /\ (exists v n, Monitor.cpu_of r = Ok v /\ Monitor.as_number v = Ok n)
  /\ (exists v n, Monitor.memory_of r = Ok v /\ Monitor.as_number v = Ok n)
  /\ (exists v n, Monitor.response_time_of r = Ok v /\ Monitor.as_number v = Ok n)
  /\ (exists v k, Monitor.status_of r = Ok v /\ Monitor.hashable v = Ok k).

(** The number of records counted by the lines of the status table. *)
Definition counted (status_lines : list (Monitor.key * nat * float)) : nat :=
  sum_list (map (fun line => line.1.2) status_lines).

End Statements.

(** ** Concrete requests and stub collaborators *)

Module Scenarios.

Definition hi : list (gmap string string) :=
  [ {[ "role" := "user"; "content" := "hi" ]} ].

(** A request asking for greedy decoding and for no new token. *)
Definition zero_overrides : ChatRequest :=
  {| messages := hi;
     max_tokens := Some 0;
     temperature := Some 0%float;
     top_p := None;
     stream := false |}.

(** A request whose [top_p] lies outside (0, 1]. *)
Definition top_p_too_large : ChatRequest :=
  {| messages := hi;
     max_tokens := Some 10;
     temperature := None;
     top_p := Some 1.5%float;
     stream := false |}.

(** The request of the end-to-end scenario. *)
Definition hi_request : ChatRequest :=
  {| messages := hi;
     max_tokens := Some 10;
     temperature := None;
     top_p := None;
     stream := false |}.

(** A tokenizer that gives one token per character and decodes anything to
    ["hello"], and a model that appends two tokens to its input. *)
Definition stub_tokenizer : ModelServer.Tokenizer :=
  {| ModelServer.encode := fun input_text =>
       Ok (map (fun c => Z.of_nat (Ascii.nat_of_ascii c)) (String.list_ascii_of_string input_text));
     ModelServer.decode := fun _ => Ok "hello" |}.

Definition stub_model : ModelServer.Model :=
  {| ModelServer.generate := fun input_ids _ => Ok (input_ids ++ [104; 105]) |}.

(** A deterministic engine that answers ["hello"] in one finished output. *)
Definition hello_engine : VllmServer.Engine :=
  {| VllmServer.generate := fun _ _ _ =>
       [ VllmServer.Yield {| VllmServer.finished := true;
                             VllmServer.text := "hello";
                             VllmServer.token_ids := [104; 105];
                             VllmServer.prompt_token_ids := [1; 2; 3] |} ] |}.

(** A deterministic engine that reports its text as it grows. *)
Definition growing_engine : VllmServer.Engine :=
  {| VllmServer.generate := fun _ _ _ =>
       [ VllmServer.Yield {| VllmServer.finished := false;
                             VllmServer.text := "he";
                             VllmServer.token_ids := [104];
                             VllmServer.prompt_token_ids := [1; 2; 3] |};
         VllmServer.Yield {| VllmServer.finished := true;
                             VllmServer.text := "hello";
                             VllmServer.token_ids := [104; 105];
                             VllmServer.prompt_token_ids := [1; 2; 3] |} ] |}.

(** A [SamplingParams] constructor that accepts every argument. *)
Definition accept_all (_ : VllmServer.SamplingParams) : result unit := Ok tt.

(** The record of a tick on a busy host whose health probe got HTTP 503 and
    whose chat probe timed out. *)
Definition failed_probe_record : list (string * Monitor.json) :=
  Monitor.generate_report "2024-01-01T00:00:00"
    (Monitor.get_system_metrics "2024-01-01T00:00:00"
       (Ok {| Monitor.cpu_percent := 95; Monitor.memory_total := 64;
              Monitor.memory_available := 32; Monitor.memory_percent := 50;
              Monitor.memory_used := 32; Monitor.disk_total := 100;
              Monitor.disk_used := 10; Monitor.disk_free := 90 |}%float)
       (Raise "no device"))
    (Monitor.get_api_health (Ok (503, Monitor.JNull)))
    (Monitor.test_api_performance (Raise "timed out") 60%float).

(** Two persisted records: a full one, and one of a tick whose host probes
    read zero and whose chat probe failed. *)
Definition full_record : Monitor.json :=
  Monitor.JDict
    [ ("timestamp", Monitor.JStr "t0");
      ("system", Monitor.JDict
         [ ("cpu_percent", Monitor.JNum 40);
           ("memory", Monitor.JDict [("percent", Monitor.JNum 50)]) ]);
      ("api_health", Monitor.JDict [("status", Monitor.JStr "healthy")]);
      ("performance", Monitor.JDict [("response_time", Monitor.JNum 2)]) ]%float.

Definition idle_record : Monitor.json :=
  Monitor.JDict
    [ ("timestamp", Monitor.JStr "t1");
      ("system", Monitor.JDict [("cpu_percent", Monitor.JNum 0)]);
      ("api_health", Monitor.JDict [("error", Monitor.JStr "HTTP 503")]);
      ("performance", Monitor.JDict [("error", Monitor.JStr "timed out")]) ]%float.

(** Ticks of the monitor: a healthy one, one whose probes all failed, and one
    whose health endpoint answered 200 with a list. *)
Definition busy_host : Monitor.HostReading :=
  {| Monitor.cpu_percent := 95; Monitor.memory_total := 64;
     Monitor.memory_available := 32; Monitor.memory_percent := 50;
     Monitor.memory_used := 32; Monitor.disk_total := 100;
     Monitor.disk_used := 10; Monitor.disk_free := 90 |}%float.

Definition healthy_tick : MonitorLoop.tick :=
  {| MonitorLoop.now_system := "t0";
     MonitorLoop.now_report := "t0";
     MonitorLoop.host := Ok busy_host;
     MonitorLoop.getGPUs := Ok [];
     MonitorLoop.health_probe :=
       Ok (200, Monitor.JDict [("status", Monitor.JStr "healthy")]);
     MonitorLoop.chat_probe :=
       Ok (200, Monitor.JDict [("processing_time", Monitor.JNum 1%float)]);
     MonitorLoop.elapsed := 45%float |}.

Definition blind_tick : MonitorLoop.tick :=
  {| MonitorLoop.now_system := "t1";
     MonitorLoop.now_report := "t1";
     MonitorLoop.host := Raise "psutil failed";
     MonitorLoop.getGPUs := Raise "no device";
     MonitorLoop.health_probe := Ok (503, Monitor.JNull);
     MonitorLoop.chat_probe := Raise "timed out";
     MonitorLoop.elapsed := 60%float |}.

Definition odd_health_tick : MonitorLoop.tick :=
  {| MonitorLoop.now_system := "t2";
     MonitorLoop.now_report := "t2";
     MonitorLoop.host := Ok busy_host;
     MonitorLoop.getGPUs := Ok [];
     MonitorLoop.health_probe := Ok (200, Monitor.JList []);
     MonitorLoop.chat_probe := Raise "timed out";
     MonitorLoop.elapsed := 60%float |}.

(** A base directory with a verified model, a directory that only holds
    weights, and a stray file. *)
Definition models_directory : list (string * Downloader.node) :=
  [ ("Qwen2.5-32B-Instruct",
     Downloader.Dir ["config.json"; "tokenizer.json"; "tokenizer_config.json";
                     "model-00001-of-00017.safetensors"]);
    ("Qwen2-7B-Instruct", Downloader.Dir ["pytorch_model.bin"]);
    ("README.md", Downloader.File) ].

(** A model whose generation fails. *)
Definition failing_model : ModelServer.Model :=
  {| ModelServer.generate := fun _ _ => Raise "CUDA out of memory" |}.

(** A [SamplingParams] constructor that refuses a [top_p] outside (0, 1]. *)
Definition strict_top_p (sampling_params : VllmServer.SamplingParams) : result unit :=
  if ((0 <? VllmServer.sp_top_p sampling_params)%float
      && (VllmServer.sp_top_p sampling_params <=? 1)%float)%bool
  then Ok tt
  else Raise "top_p must be in (0, 1]".

(** One enumerated device. *)
Definition one_gpu : Health.GPU :=
  {| Health.memoryUsed := 1024; Health.memoryTotal := 4096; Health.memoryUtil := 0.25 |}%float.

(** A string-to-float conversion that knows no literal. *)
Definition no_literal (_ : string) : option float := None.

End Scenarios.

(** * Properties *)

(** ** Strings and dictionaries *)

Lemma append_cons (a : Ascii.ascii) (s t : string) : String a s +:+ t = String a (s +:+ t).
Proof. reflexivity. Qed.

Lemma append_nil_r (s : string) : s +:+ "" = s.
Proof. induction s as [|a s IH]; [done | by rewrite append_cons, IH]. Qed.

Lemma append_assoc (s t u : string) : (s +:+ t) +:+ u = s +:+ (t +:+ u).
Proof. induction s as [|a s IH]; [done | by rewrite !append_cons, IH]. Qed.

Lemma concat_empty_cons (s : string) (l : list string) :
  String.concat "" (s :: l) = s +:+ String.concat "" l.
Proof. destruct l; [symmetry; apply append_nil_r | done]. Qed.

Lemma dict_get_set_eq {V} k (v : V) d : dict_get k (dict_set k v d) = Some v.
Proof.
  induction d as [|[k' v'] d IH]; simpl.
  - by rewrite decide_True.
  - destruct (decide (k = k')) as [->|Hne]; simpl.
    + by rewrite decide_True.
    + by rewrite decide_False.
Qed.

Lemma dict_get_set_ne {V} k k' (v : V) d :
  k ≠ k' -> dict_get k' (dict_set k v d) = dict_get k' d.
Proof.
  intros Hne. induction d as [|[k0 v0] d IH]; simpl.
  - by rewrite decide_False.
  - destruct (decide (k = k0)) as [->|Hk]; simpl.
    + by rewrite !decide_False.
    + destruct (decide (k' = k0)); [done | apply IH].
Qed.

(** ** The prompt formatter *)

Section FormatterFacts.
Import Formatter.

Lemma format_loop (conversation : list (gmap string string)) (acc : string) :
  foldl format_step acc conversation
  = acc +:+ String.concat ""
      (map (fun m => block (role_of m) (content_of m))
           (filter (fun m => kept m = true) conversation)).
Proof.
  revert acc. induction conversation as [|m conversation IH]; intros acc.
  - simpl. by rewrite append_nil_r.
  - simpl foldl. rewrite IH. rewrite filter_cons.
    unfold format_step, kept, role_of, content_of.
    destruct (decide (default "" (m !! "role") = "user")) as [Hu|Hu].
    + rewrite decide_True; [|by rewrite bool_decide_eq_true_2].
      simpl map. rewrite concat_empty_cons, Hu. unfold block.
      rewrite !append_assoc. reflexivity.
    + destruct (decide (default "" (m !! "role") = "assistant")) as [Ha|Ha].
      * rewrite decide_True;
          [|by rewrite (bool_decide_eq_true_2 (_ = "assistant")), orb_true_r].
        simpl map. rewrite concat_empty_cons, Ha. unfold block.
        rewrite !append_assoc. reflexivity.
      * rewrite decide_False; [done|].
        rewrite !bool_decide_eq_false_2 by done. done.
Qed.

Lemma format_is_spec (conversation : list (gmap string string)) :
  format_chat_messages conversation = format_spec conversation.
Proof.
  unfold format_chat_messages, format_spec, open_assistant_marker.
  by rewrite format_loop.
Qed.

(** C5. [format_chat_messages] is the concatenation, in input order, of one
    block [<|im_start|>ROLE\nCONTENT<|im_end|>\n] for each turn whose role
    is [user] or [assistant] (a missing content being the empty string),
    every other turn being dropped, followed by exactly one open assistant
    marker [<|im_start|>assistant\n]. *)
Theorem format_chat_messages_blocks (conversation : list (gmap string string)) :
  format_chat_messages conversation
  = String.concat ""
      (map (fun m => block (role_of m) (content_of m))
           (filter (fun m => kept m = true) conversation))
    +:+ open_assistant_marker
  /\ (forall m, kept m = true <-> role_of m = "user" \/ role_of m = "assistant")
  /\ (forall m, m !! "content" = None -> content_of m = "")
  /\ (forall m role, m !! "role" = Some role -> role_of m = role)
  /\ (forall m content, m !! "content" = Some content -> content_of m = content)
  /\ (forall role content,
        block role content = "<|im_start|>" +:+ role +:+ nl +:+ content +:+ "<|im_end|>" +:+ nl).
Proof.
  split; [apply format_is_spec|]. repeat split.
  - unfold kept. intros H. destruct (orb_prop _ _ H) as [H'|H'];
      apply bool_decide_eq_true_1 in H'; auto.
  - unfold kept. intros [H|H]; apply orb_true_intro; [left|right];
      by apply bool_decide_eq_true_2.
  - unfold content_of. by intros m ->.
  - unfold role_of. by intros m role ->.
  - unfold content_of. by intros m content ->.
Qed.

(** A turn with another role adds nothing, wherever it stands. *)
Lemma format_drops_other_roles (before after : list (gmap string string))
    (m : gmap string string) :
  role_of m ≠ "user" -> role_of m ≠ "assistant" ->
  format_chat_messages (before ++ m :: after) = format_chat_messages (before ++ after).
Proof.
  intros Hu Ha. rewrite !format_is_spec. unfold format_spec.
  rewrite !filter_app, filter_cons, decide_False; [done|].
  unfold kept. by rewrite !bool_decide_eq_false_2.
Qed.

(** One block per kept turn. *)
Lemma format_block_count (conversation : list (gmap string string)) :
  length (map (fun m => block (role_of m) (content_of m))
              (filter (fun m => kept m = true) conversation))
  = length (filter (fun m => kept m = true) conversation).
Proof. by rewrite length_map. Qed.

Example format_example :
  format_chat_messages
    [ {[ "role" := "system"; "content" := "be brief" ]};
      {[ "role" := "user"; "content" := "hi" ]};
      {[ "role" := "assistant" ]};
      {[ "content" := "no role" ]} ]
  = "<|im_start|>user" +:+ nl +:+ "hi<|im_end|>" +:+ nl +:+
    "<|im_start|>assistant" +:+ nl +:+ "<|im_end|>" +:+ nl +:+
    "<|im_start|>assistant" +:+ nl.
Proof. vm_compute. reflexivity. Qed.
End FormatterFacts.

(** ** The generation parameter resolver *)

Section ResolverFacts.
Import ModelConfig Scenarios.

Lemma or_int_truthy (z d : Z) : truthy_int (Some z) = true -> or_int (Some z) d = z.
Proof. unfold or_int. by intros ->. Qed.

Lemma or_float_truthy (f d : float) :
  truthy_float (Some f) = true -> or_float (Some f) d = f.
Proof. unfold or_float. by intros ->. Qed.

Lemma or_float_falsy (f d : float) :
  truthy_float (Some f) = false -> or_float (Some f) d = d.
Proof. unfold or_float. by intros ->. Qed.

(** A truthy override is the resolved value, an absent one leaves the
    default: the engine's sampling parameters. *)
Lemma sampling_params_truthy_override (request : ChatRequest) (p : float) :
  request.(top_p) = Some p -> truthy_float (Some p) = true ->
  VllmServer.sp_top_p (VllmServer.sampling_params_of request) = p.
Proof. intros Hp Ht. simpl. rewrite Hp. by apply or_float_truthy. Qed.

Lemma sampling_params_absent (request : ChatRequest) :
  request.(max_tokens) = None -> request.(temperature) = None -> request.(top_p) = None ->
  VllmServer.sampling_params_of request
  = {| VllmServer.sp_max_tokens := MAX_TOKENS;
       VllmServer.sp_temperature := TEMPERATURE;
       VllmServer.sp_top_p := TOP_P;
       VllmServer.sp_repetition_penalty := REPETITION_PENALTY;
       VllmServer.sp_stop := ["<|im_end|>"; "<|endoftext|>"] |}.
Proof. intros Hm Ht Hp. unfold VllmServer.sampling_params_of. by rewrite Hm, Ht, Hp. Qed.

(** The three conditional assignments touch no other key. *)
Lemma generation_kwargs_other_keys (request : ChatRequest) (k : string) :
  k ≠ "max_new_tokens" -> k ≠ "temperature" -> k ≠ "top_p" ->
  dict_get k (ModelServer.generation_kwargs_of request) = dict_get k get_generation_kwargs.
Proof.
  intros H1 H2 H3. unfold ModelServer.generation_kwargs_of.
  destruct (top_p request) as [p|]; [destruct (truthy_float (Some p))|];
    rewrite ?dict_get_set_ne by done;
    (destruct (temperature request) as [t|]; [destruct (truthy_float (Some t))|]);
    rewrite ?dict_get_set_ne by done;
    (destruct (max_tokens request) as [z|]; [destruct (truthy_int (Some z))|]);
    by rewrite ?dict_get_set_ne by done.
Qed.

Lemma generation_kwargs_top_p (request : ChatRequest) (p : float) :
  request.(top_p) = Some p -> truthy_float (Some p) = true ->
  dict_get "top_p" (ModelServer.generation_kwargs_of request) = Some (KFloat p).
Proof.
  intros Hp Ht. unfold ModelServer.generation_kwargs_of.
  rewrite Hp, Ht. apply dict_get_set_eq.
Qed.

Lemma generation_kwargs_temperature (request : ChatRequest) (t : float) :
  request.(temperature) = Some t -> truthy_float (Some t) = true ->
  dict_get "temperature" (ModelServer.generation_kwargs_of request) = Some (KFloat t).
Proof.
  intros Hp Ht. unfold ModelServer.generation_kwargs_of.
  destruct (top_p request) as [p|]; [destruct (truthy_float (Some p))|];
    rewrite ?dict_get_set_ne by done; rewrite Hp, Ht; apply dict_get_set_eq.
Qed.

(** C2. The overrides [temperature = 0.0] and [max_tokens = 0] are present
    and not null, yet both servers resolve them to the defaults [0.7] and
    [2048]: the truthiness tests take a zero for an absent value. *)
Theorem zero_override_resolves_to_default :
  temperature zero_overrides = Some 0%float
  /\ max_tokens zero_overrides = Some 0
  /\ VllmServer.sp_temperature (VllmServer.sampling_params_of zero_overrides) = TEMPERATURE
  /\ VllmServer.sp_max_tokens (VllmServer.sampling_params_of zero_overrides) = MAX_TOKENS
  /\ dict_get "temperature" (ModelServer.generation_kwargs_of zero_overrides)
     = Some (KFloat TEMPERATURE)
  /\ dict_get "max_new_tokens" (ModelServer.generation_kwargs_of zero_overrides)
     = Some (KInt MAX_TOKENS)
  /\ PrimFloat.eqb TEMPERATURE 0%float = false
  /\ MAX_TOKENS ≠ 0.
Proof. repeat split; try reflexivity. discriminate. Qed.

(** C8. Whatever two requests carry, the repetition penalty and the stop
    sequences given to the backend are the same, namely the server's own:
    the engine's sampling parameters take the configured penalty and the
    fixed stop list, and the generation keywords of the blocking backend
    keep the configured penalty and end-of-sequence token and never gain a
    stop entry. *)
Theorem penalty_and_stop_ignore_request (r1 r2 : ChatRequest) :
  VllmServer.sp_repetition_penalty (VllmServer.sampling_params_of r1)
  = VllmServer.sp_repetition_penalty (VllmServer.sampling_params_of r2)
  /\ VllmServer.sp_stop (VllmServer.sampling_params_of r1)
     = VllmServer.sp_stop (VllmServer.sampling_params_of r2)
  /\ VllmServer.sp_repetition_penalty (VllmServer.sampling_params_of r1) = REPETITION_PENALTY
  /\ VllmServer.sp_stop (VllmServer.sampling_params_of r1) = ["<|im_end|>"; "<|endoftext|>"]
  /\ dict_get "repetition_penalty" (ModelServer.generation_kwargs_of r1)
     = dict_get "repetition_penalty" (ModelServer.generation_kwargs_of r2)
  /\ dict_get "repetition_penalty" (ModelServer.generation_kwargs_of r1)
     = Some (KFloat REPETITION_PENALTY)
  /\ dict_get "eos_token_id" (ModelServer.generation_kwargs_of r1)
     = dict_get "eos_token_id" (ModelServer.generation_kwargs_of r2)
  /\ dict_get "stop" (ModelServer.generation_kwargs_of r1) = None
  /\ dict_get "stop" (ModelServer.generation_kwargs_of r2) = None.
Proof.
  repeat split; try reflexivity;
    rewrite !generation_kwargs_other_keys by done; reflexivity.
Qed.
End ResolverFacts.

(** ** The chat gateway *)

Section GatewayFacts.
Import ModelConfig Statements Scenarios.

Lemma vllm_chat_usage verify_args engine request_id start_time end_time request calls r :
  VllmServer.chat verify_args engine request_id start_time end_time request = (calls, Respond r) ->
  usage_adds_up r.(usage).
Proof.
  unfold VllmServer.chat. intros H.
  destruct engine as [engine|]; [|discriminate].
  destruct (verify_args _); [|discriminate].
  destruct (VllmServer.wait_final _) as [[final|]|]; try discriminate.
  injection H as _ <-. unfold usage_adds_up. simpl. lia.
Qed.

Lemma model_chat_usage model tokenizer start_time end_time request calls r :
  extends_prompt model ->
  ModelServer.chat (Some model) tokenizer start_time end_time request = (calls, Respond r) ->
  usage_adds_up r.(usage).
Proof.
  unfold ModelServer.chat. intros Hext H.
  destruct tokenizer as [tokenizer|]; [|discriminate].
  destruct (ModelServer.encode _ _) as [input_ids|]; [|discriminate].
  destruct (ModelServer.generate _ _ _) as [outputs|] eqn:Hgen; [|discriminate].
  destruct (ModelServer.decode _ _); [|discriminate].
  injection H as _ <-. apply Hext in Hgen. unfold usage_adds_up. simpl. lia.
Qed.

(** C7. Every successful non-streaming chat call, on the engine server and on
    the blocking server (whose model returns the prompt followed by the new
    tokens), reports a usage with
    [total_tokens = prompt_tokens + completion_tokens] and both addends
    non-negative. *)
Theorem chat_usage_adds_up
    verify_args engine request_id model tokenizer start_time end_time request :
  extends_prompt model ->
  (forall calls r,
     VllmServer.chat verify_args engine request_id start_time end_time request
     = (calls, Respond r) ->
     usage_adds_up r.(usage))
  /\ (forall calls r,
        ModelServer.chat (Some model) tokenizer start_time end_time request
        = (calls, Respond r) ->
        usage_adds_up r.(usage)).
Proof.
  intros Hext. split; intros calls r H.
  - by eapply vllm_chat_usage.
  - by eapply model_chat_usage.
Qed.

Lemma stub_model_extends_prompt : extends_prompt stub_model.
Proof.
  intros input_ids kw outputs H. injection H as <-. rewrite length_app. lia.
Qed.

(** The end-to-end scenario on both stubs: a successful call, whose usage
    adds up. *)
Lemma chat_usage_adds_up_witness :
  extends_prompt stub_model
  /\ (exists calls r,
        VllmServer.chat accept_all (Some hello_engine) "id-1" 0%float 1%float hi_request
        = (calls, Respond r)
        /\ usage_adds_up r.(usage))
  /\ (exists calls r,
        ModelServer.chat (Some stub_model) (Some stub_tokenizer) 0%float 1%float hi_request
        = (calls, Respond r)
        /\ usage_adds_up r.(usage)).
Proof.
  split; [exact stub_model_extends_prompt|].
  split; eexists _, _; (split; [reflexivity|]).
  - exact (proj1 (chat_usage_adds_up accept_all (Some hello_engine) "id-1" stub_model
                    (Some stub_tokenizer) 0%float 1%float hi_request
                    stub_model_extends_prompt) _ _ eq_refl).
  - exact (proj2 (chat_usage_adds_up accept_all (Some hello_engine) "id-1" stub_model
                    (Some stub_tokenizer) 0%float 1%float hi_request
                    stub_model_extends_prompt) _ _ eq_refl).
Defined.

(** *** Streaming against the plain call *)

(** What the stream lets a consumer rebuild is the texts of the unfinished
    outputs; the text of the finished one is not sent. *)
Lemma stream_sends_unfinished_texts request_id now i results_generator :
  VllmServer.reconstruct
    (VllmServer.generate_stream request_id now i results_generator).1
  = String.concat "" (unfinished_texts results_generator).
Proof.
  unfold VllmServer.reconstruct.
  revert i. induction results_generator as [|[o|e] rest IH]; intros i; try done.
  cbn [VllmServer.generate_stream unfinished_texts].
  destruct (VllmServer.finished o); [done|]. cbn [negb].
  specialize (IH (S i)).
  destruct (VllmServer.generate_stream _ _ _ rest) as [frames exn].
  cbn [fst VllmServer.delta_texts VllmServer.choices VllmServer.delta_content default] in *.
  by rewrite !concat_empty_cons, IH.
Qed.

(** The plain call answers with the text of the first finished output. *)
Lemma chat_answers_final_text verify_args engine request_id start_time end_time request calls r :
  VllmServer.chat verify_args (Some engine) request_id start_time end_time request
  = (calls, Respond r) ->
  exists final,
    VllmServer.wait_final
      (engine.(VllmServer.generate) (Formatter.format_chat_messages request.(messages))
         (VllmServer.sampling_params_of request) request_id) = Ok (Some final)
    /\ r.(response) = final.(VllmServer.text).
Proof.
  unfold VllmServer.chat. intros H.
  destruct (verify_args _); [|discriminate].
  destruct (VllmServer.wait_final _) as [[final|]|]; try discriminate.
  injection H as _ <-. by exists final.
Qed.

(** C1. Against a deterministic engine that answers ["hello"] in one finished
    output, the plain call returns ["hello"] while the stream carries an
    empty final delta and the sentinel: the deltas concatenate to the empty
    string. Against an engine that first reports ["he"], the stream
    concatenates to ["he"] and the plain call returns ["hello"]. *)
Theorem stream_misses_final_text :
  (exists calls r frames,
     VllmServer.chat accept_all (Some hello_engine) "id-1" 0%float 1%float hi_request
     = (calls, Respond r)
     /\ VllmServer.chat_stream accept_all (Some hello_engine) "id-1" (fun _ => 0) hi_request
        = (calls, Respond (frames, None))
     /\ r.(response) = "hello"
     /\ VllmServer.reconstruct frames = ""
     /\ last frames = Some VllmServer.DONE)
  /\ (exists calls r frames,
        VllmServer.chat accept_all (Some growing_engine) "id-1" 0%float 1%float hi_request
        = (calls, Respond r)
        /\ VllmServer.chat_stream accept_all (Some growing_engine) "id-1" (fun _ => 0) hi_request
           = (calls, Respond (frames, None))
        /\ r.(response) = "hello"
        /\ VllmServer.reconstruct frames = "he"
        /\ last frames = Some VllmServer.DONE).
Proof. split; eexists _, _, _; repeat split; reflexivity. Qed.

(** *** Overrides outside their domain *)

Lemma vllm_chat_failure_status verify_args engine request_id start_time end_time request
    calls status_code detail :
  VllmServer.chat verify_args engine request_id start_time end_time request
  = (calls, HTTPException status_code detail) ->
  status_code = 500 \/ status_code = 503.
Proof.
  unfold VllmServer.chat. intros H.
  destruct engine as [engine|]; [|injection H as _ <- _; by right].
  destruct (verify_args _); [|injection H as _ <- _; by left].
  destruct (VllmServer.wait_final _) as [[final|]|]; try discriminate;
    injection H as _ <- _; by left.
Qed.

Lemma model_chat_failure_status model tokenizer start_time end_time request
    calls status_code detail :
  ModelServer.chat model tokenizer start_time end_time request
  = (calls, HTTPException status_code detail) ->
  status_code = 500 \/ status_code = 503.
Proof.
  unfold ModelServer.chat. intros H.
  destruct model as [model|]; [|injection H as _ <- _; by right].
  destruct tokenizer as [tokenizer|]; [|injection H as _ <- _; by right].
  destruct (ModelServer.encode _ _) as [input_ids|]; [|injection H as _ <- _; by left].
  destruct (ModelServer.generate _ _ _) as [outputs|]; [|injection H as _ <- _; by left].
  destruct (ModelServer.decode _ _); [discriminate|].
  injection H as _ <- _; by left.
Qed.

(** Once the prompt is tokenized, the model is called with the resolved
    keywords, whatever they hold. *)
Lemma model_chat_calls_generate model tokenizer start_time end_time request input_ids :
  tokenizer.(ModelServer.encode) (Formatter.format_chat_messages request.(messages))
  = Ok input_ids ->
  ModelServer.CallGenerate input_ids (ModelServer.generation_kwargs_of request)
  ∈ (ModelServer.chat (Some model) (Some tokenizer) start_time end_time request).1.
Proof.
  intros Henc. unfold ModelServer.chat. rewrite Henc.
  destruct (ModelServer.generate _ _ _) as [outputs|]; simpl.
  - destruct (ModelServer.decode _ _); simpl; set_solver.
  - set_solver.
Qed.

(** An error raised by the streaming handler has status 500 or 503. *)
Lemma vllm_chat_stream_failure_status verify_args engine request_id now request
    calls status_code detail :
  VllmServer.chat_stream verify_args engine request_id now request
  = (calls, HTTPException status_code detail) ->
  status_code = 500 \/ status_code = 503.
Proof.
  unfold VllmServer.chat_stream. intros H.
  destruct engine as [engine|]; [|injection H as _ <- _; by right].
  destruct (verify_args _); [discriminate|injection H as _ <- _; by left].
Qed.

(** A refusal of the [SamplingParams] constructor is caught by the generic
    handler of both endpoints, before anything is submitted. *)
Lemma vllm_refusal_is_server_fault verify_args engine request_id stream_id
    start_time end_time now request e :
  verify_args (VllmServer.sampling_params_of request) = Raise e ->
  VllmServer.chat verify_args (Some engine) request_id start_time end_time request
  = ([], HTTPException 500 (VllmServer.error_detail e))
  /\ VllmServer.chat_stream verify_args (Some engine) stream_id now request
     = ([], HTTPException 500 (VllmServer.error_detail e)).
Proof. intros H. unfold VllmServer.chat, VllmServer.chat_stream. by rewrite H. Qed.

(** Once the parameters are accepted, the streaming handler submits the job
    and returns its response. *)
Lemma vllm_chat_stream_started verify_args engine stream_id now request u :
  verify_args (VllmServer.sampling_params_of request) = Ok u ->
  VllmServer.chat_stream verify_args (Some engine) stream_id now request
  = ([ VllmServer.CallGenerate (Formatter.format_chat_messages request.(messages))
         (VllmServer.sampling_params_of request) stream_id ],
     Respond
       (VllmServer.generate_stream stream_id now 0
          (engine.(VllmServer.generate)
             (Formatter.format_chat_messages request.(messages))
             (VllmServer.sampling_params_of request) stream_id))).
Proof. intros H. unfold VllmServer.chat_stream. by rewrite H. Qed.

(** C3, as the code has it. For a request body parsed into a [ChatRequest],
    no chat handler refuses the request as a client error: every HTTP error
    raised by [/chat] of either server or by [/chat/stream] has status 500,
    or 503 when the model, tokenizer or engine is not loaded. A present,
    non-zero override of [top_p] or [temperature] is the resolved value
    whatever its domain, and the blocking server calls [model.generate] with
    the resolved keywords as soon as the prompt is tokenized. On the engine
    server, when the [SamplingParams] constructor refuses the resolved
    values, [/chat] and [/chat/stream] both answer 500 with the
    constructor's message in the detail and submit nothing to the engine;
    when it accepts them, [/chat/stream] submits the job and returns the
    streaming response of [generate_stream], so that a later failure of the
    engine cuts the stream and raises no HTTP error. *)
Theorem chat_forwards_overrides_unchecked
    verify_args engine request_id stream_id model tokenizer start_time end_time now
    request :
  (forall calls status_code detail,
     VllmServer.chat verify_args engine request_id start_time end_time request
     = (calls, HTTPException status_code detail) ->
     status_code = 500 \/ status_code = 503)
  /\ (forall calls status_code detail,
        VllmServer.chat_stream verify_args engine stream_id now request
        = (calls, HTTPException status_code detail) ->
        status_code = 500 \/ status_code = 503)
  /\ (forall calls status_code detail,
        ModelServer.chat model tokenizer start_time end_time request
        = (calls, HTTPException status_code detail) ->
        status_code = 500 \/ status_code = 503)
  /\ (forall p, request.(top_p) = Some p -> truthy_float (Some p) = true ->
        VllmServer.sp_top_p (VllmServer.sampling_params_of request) = p
        /\ dict_get "top_p" (ModelServer.generation_kwargs_of request) = Some (KFloat p))
  /\ (forall t, request.(temperature) = Some t -> truthy_float (Some t) = true ->
        VllmServer.sp_temperature (VllmServer.sampling_params_of request) = t
        /\ dict_get "temperature" (ModelServer.generation_kwargs_of request) = Some (KFloat t))
  /\ (forall m tok input_ids,
        model = Some m -> tokenizer = Some tok ->
        tok.(ModelServer.encode) (Formatter.format_chat_messages request.(messages))
        = Ok input_ids ->
        ModelServer.CallGenerate input_ids (ModelServer.generation_kwargs_of request)
        ∈ (ModelServer.chat model tokenizer start_time end_time request).1)
  /\ (forall eng e,
        engine = Some eng ->
        verify_args (VllmServer.sampling_params_of request) = Raise e ->
        VllmServer.chat verify_args engine request_id start_time end_time request
        = ([], HTTPException 500 (VllmServer.error_detail e))
        /\ VllmServer.chat_stream verify_args engine stream_id now request
           = ([], HTTPException 500 (VllmServer.error_detail e)))
  /\ (forall eng u,
        engine = Some eng ->
        verify_args (VllmServer.sampling_params_of request) = Ok u ->
        VllmServer.chat_stream verify_args engine stream_id now request
        = ([ VllmServer.CallGenerate (Formatter.format_chat_messages request.(messages))
               (VllmServer.sampling_params_of request) stream_id ],
           Respond
             (VllmServer.generate_stream stream_id now 0
                (eng.(VllmServer.generate)
                   (Formatter.format_chat_messages request.(messages))
                   (VllmServer.sampling_params_of request) stream_id)))).
Proof.
  split; [intros; by eapply vllm_chat_failure_status|].
  split; [intros; by eapply vllm_chat_stream_failure_status|].
  split; [intros; by eapply model_chat_failure_status|].
  split; [|split; [|split; [|split]]].
  - intros p Hp Ht. split; [|by apply generation_kwargs_top_p].
    simpl. rewrite Hp. by apply or_float_truthy.
  - intros t Hp Ht. split; [|by apply generation_kwargs_temperature].
    simpl. rewrite Hp. by apply or_float_truthy.
  - intros m tok input_ids -> -> Henc. by apply model_chat_calls_generate.
  - intros eng e -> He. by apply vllm_refusal_is_server_fault.
  - intros eng u -> Hu. by eapply vllm_chat_stream_started.
Qed.

(** The request with [top_p = 1.5]: the value reaches [model.generate]; a
    constructor that refuses it makes both engine endpoints answer 500, and
    one that accepts it lets the stream start. *)
Lemma chat_forwards_overrides_unchecked_witness :
  VllmServer.sp_top_p (VllmServer.sampling_params_of top_p_too_large) = 1.5%float
  /\ dict_get "top_p" (ModelServer.generation_kwargs_of top_p_too_large)
     = Some (KFloat 1.5%float)
  /\ ModelServer.CallGenerate
       (map (fun c => Z.of_nat (Ascii.nat_of_ascii c))
            (String.list_ascii_of_string (Formatter.format_chat_messages hi)))
       (ModelServer.generation_kwargs_of top_p_too_large)
     ∈ (ModelServer.chat (Some stub_model) (Some stub_tokenizer) 0%float 1%float
          top_p_too_large).1
  /\ VllmServer.chat strict_top_p (Some hello_engine) "id-1" 0%float 1%float
       top_p_too_large
     = ([], HTTPException 500 (VllmServer.error_detail "top_p must be in (0, 1]"))
  /\ VllmServer.chat_stream strict_top_p (Some hello_engine) "id-2" (fun _ => 0)
       top_p_too_large
     = ([], HTTPException 500 (VllmServer.error_detail "top_p must be in (0, 1]"))
  /\ (exists body,
        (VllmServer.chat_stream accept_all (Some hello_engine) "id-2" (fun _ => 0)
           top_p_too_large).2 = Respond body).
Proof.
  pose proof (chat_forwards_overrides_unchecked accept_all (Some hello_engine) "id-1" "id-2"
                (Some stub_model) (Some stub_tokenizer) 0%float 1%float (fun _ => 0)
                top_p_too_large)
    as (_ & _ & _ & Htop & _ & Hcall & _ & Hstream).
  pose proof (chat_forwards_overrides_unchecked strict_top_p (Some hello_engine) "id-1" "id-2"
                (Some stub_model) (Some stub_tokenizer) 0%float 1%float (fun _ => 0)
                top_p_too_large)
    as (_ & _ & _ & _ & _ & _ & Hrefused & _).
  destruct (Htop 1.5%float eq_refl eq_refl) as [H1 H2].
  destruct (Hrefused hello_engine "top_p must be in (0, 1]" eq_refl eq_refl) as [H3 H4].
  split; [exact H1|]. split; [exact H2|].
  split; [exact (Hcall stub_model stub_tokenizer _ eq_refl eq_refl eq_refl)|].
  split; [exact H3|]. split; [exact H4|].
  eexists. rewrite (Hstream hello_engine tt eq_refl eq_refl). reflexivity.
Defined.

(** C3, as the claim states it, fails: the request with [top_p = 1.5] is out
    of domain, the blocking server answers it after calling the backend, and
    the engine server, whose parameter constructor refuses the value, answers
    with a server fault. *)
Lemma out_of_domain_override_not_rejected :
  out_of_domain top_p_too_large = true
  /\ ~ rejected_before_backend
        (ModelServer.chat (Some stub_model) (Some stub_tokenizer) 0%float 1%float
           top_p_too_large)
  /\ (exists r,
        (ModelServer.chat (Some stub_model) (Some stub_tokenizer) 0%float 1%float
           top_p_too_large).2 = Respond r)
  /\ ~ rejected_before_backend
        (VllmServer.chat strict_top_p (Some hello_engine) "id-1" 0%float 1%float
           top_p_too_large)
  /\ (exists detail,
        (VllmServer.chat strict_top_p (Some hello_engine) "id-1" 0%float 1%float
           top_p_too_large).2 = HTTPException 500 detail).
Proof.
  split; [reflexivity|]. split; [|split; [|split]].
  - intros [Hcalls _]. vm_compute in Hcalls. discriminate.
  - eexists. reflexivity.
  - intros (_ & status_code & detail & Hout & Hrange).
    vm_compute in Hout. injection Hout as <- _. lia.
  - eexists. reflexivity.
Qed.
End GatewayFacts.

(** ** The health reporter *)

Section HealthFacts.
Import Health Scenarios.

Lemma validate_gpu_memory_device float_of_str key stats rest :
  validate_gpu_memory float_of_str ((key, PDict stats) :: rest)
  = Raise "value is not a valid float".
Proof. reflexivity. Qed.

(** With no device and a readable host memory the snapshot is returned. *)
Lemma health_check_without_gpu float_of_str {Handle} (handle : option Handle) memory_percent :
  health_check float_of_str handle (Ok []) (Ok memory_percent)
  = Ok {| status := if is_not_None handle then "healthy" else "unhealthy";
          model_loaded := is_not_None handle;
          gpu_memory := [];
          system_memory := memory_percent |}.
Proof. reflexivity. Qed.

(** A returned snapshot is healthy exactly when the handle is not null. *)
Lemma health_status_iff_loaded float_of_str {Handle} (handle : option Handle)
    getGPUs virtual_memory snapshot :
  health_check float_of_str handle getGPUs virtual_memory = Ok snapshot ->
  (snapshot.(status) = "healthy" <-> handle ≠ None)
  /\ snapshot.(model_loaded) = is_not_None handle.
Proof.
  unfold health_check. intros H.
  destruct (get_system_info _ _) as [[gpus memory_percent]|]; [|discriminate].
  simpl in H. destruct (validate_gpu_memory _ _); [|discriminate].
  injection H as <-. simpl. destruct handle; simpl; split; try done.
Qed.

(** The host memory reading is outside the [try]: its failure escapes. *)
Lemma health_check_memory_failure float_of_str {Handle} (handle : option Handle) getGPUs e :
  health_check float_of_str handle getGPUs (Raise e) = Raise e.
Proof. reflexivity. Qed.

(** C4. [health_check] raises instead of returning a snapshot as soon as one
    device is enumerated, whatever the handle: the per-device dictionary is
    not a float, and the response model declares [gpu_memory] a
    [Dict[str, float]]. The error marker of a failed enumeration is refused
    by the same validation when it is no float literal. *)
Theorem health_check_raises_on_gpu_memory
    (float_of_str : string -> option float) (handle : option unit) (memory_percent : float) :
  (forall gpu gpus,
     health_check float_of_str handle (Ok (gpu :: gpus)) (Ok memory_percent)
     = Raise "value is not a valid float")
  /\ (forall e,
        float_of_str gpu_error_marker = None ->
        health_check float_of_str handle (Raise e) (Ok memory_percent)
        = Raise "value is not a valid float").
Proof.
  split.
  - intros gpu gpus. reflexivity.
  - intros e Hmarker. unfold health_check. simpl. by rewrite Hmarker.
Qed.

(** A loaded model, one device, then a failed enumeration. *)
Lemma health_check_raises_on_gpu_memory_witness :
  health_check no_literal (Some tt) (Ok [one_gpu]) (Ok 50%float)
  = Raise "value is not a valid float"
  /\ health_check no_literal (Some tt) (Raise "NVML not found") (Ok 50%float)
     = Raise "value is not a valid float".
Proof.
  pose proof (health_check_raises_on_gpu_memory no_literal (Some tt) 50%float) as [Hgpu Herr].
  split; [exact (Hgpu one_gpu []) | exact (Herr "NVML not found" eq_refl)].
Defined.
End HealthFacts.

(** ** The rolling log of the monitor *)

Section RollingLogFacts.
Import Monitor.

Lemma most_recent_length {A} (n : nat) (l : list A) :
  length (most_recent n l) = (length l `min` n)%nat.
Proof. unfold most_recent. rewrite length_drop. lia. Qed.

Lemma most_recent_suffix {A} (n : nat) (l : list A) : most_recent n l `suffix_of` l.
Proof. apply suffix_drop. Qed.

(** Keeping the most recent records commutes with appending. *)
Lemma most_recent_app {A} (n : nat) (l k : list A) :
  most_recent n (most_recent n l ++ k) = most_recent n (l ++ k).
Proof.
  unfold most_recent.
  rewrite !drop_app, drop_drop, !length_app, !length_drop.
  f_equal; f_equal; lia.
Qed.

(** The conditional slice [records[-1000:]] keeps the most recent 1000. *)
Lemma trim_most_recent {A} (records : list A) :
  (if (1000 <? length records)%nat
   then drop (length records - 1000)%nat records
   else records)
  = most_recent 1000 records.
Proof.
  unfold most_recent. destruct (Nat.ltb_spec 1000 (length records)); [done|].
  by replace (length records - 1000)%nat with 0%nat by lia.
Qed.

(** A save succeeds exactly from a state with stored records, and stores the
    most recent 1000 of the old records followed by the new one. *)
Lemma save_stores_most_recent (file : file_state) (metrics : json) (old : list json) :
  stored_records file = Some old ->
  stored_records (file_after_save file metrics)
  = Some (most_recent 1000 (old ++ [metrics])).
Proof.
  unfold file_after_save, save_metrics_to_file, stored_records.
  destruct file as [| | e |data]; simpl.
  - intros [= <-]. reflexivity.
  - intros [= <-]. reflexivity.
  - discriminate.
  - destruct data as [| | | | |d]; try discriminate.
    destruct (dict_get "records" d) as [[| | | |records|]|] eqn:Hget; try discriminate.
    intros [= <-]. rewrite trim_most_recent. by rewrite dict_get_set_eq.
Qed.

Lemma save_fails_without_records (file : file_state) (metrics : json) :
  stored_records file = None -> file_after_save file metrics = file.
Proof.
  unfold file_after_save, save_metrics_to_file, stored_records.
  destruct file as [| | e |data]; simpl; try discriminate; try done.
  destruct data as [| | | | |d]; try done.
  by destruct (dict_get "records" d) as [[| | | |records|]|].
Qed.

Lemma ticks_store_most_recent (ticks : list json) :
  forall (file : file_state) (old : list json) (tick : json),
    stored_records file = Some old ->
    stored_records (file_after_ticks file (tick :: ticks))
    = Some (most_recent 1000 (old ++ tick :: ticks)).
Proof.
  induction ticks as [|tick' ticks IH]; intros file old tick Hold.
  - by apply save_stores_most_recent.
  - change (file_after_ticks file (tick :: tick' :: ticks))
      with (file_after_ticks (file_after_save file tick) (tick' :: ticks)).
    rewrite (IH _ _ tick' (save_stores_most_recent file tick old Hold)).
    rewrite most_recent_app. by rewrite <- app_assoc.
Qed.

Lemma ticks_fail_without_records (ticks : list json) (file : file_state) :
  stored_records file = None -> file_after_ticks file ticks = file.
Proof.
  intros Hnone. induction ticks as [|tick ticks IH]; [done|].
  change (file_after_ticks file (tick :: ticks))
    with (file_after_ticks (file_after_save file tick) ticks).
  by rewrite save_fails_without_records.
Qed.

(** C6. From every prior state of the metrics file and after every run of
    ticks: if the file is absent, undecodable or holds a record list, the
    saved log is the most recent 1000 of the old records followed by the
    ticks, in append order (a suffix of them, of length at most 1000, so the
    evicted records are the oldest); from any other state no save succeeds
    and the file stays as it was. *)
Theorem rolling_log_bounded_fifo (file : file_state) (tick : json) (ticks : list json) :
  match stored_records file with
  | Some old =>
      exists records,
        stored_records (file_after_ticks file (tick :: ticks)) = Some records
        /\ records = most_recent 1000 (old ++ tick :: ticks)
        /\ (length records ≤ 1000)%nat
        /\ length records = (length (old ++ tick :: ticks) `min` 1000)%nat
        /\ records `suffix_of` (old ++ tick :: ticks)
  | None => file_after_ticks file (tick :: ticks) = file
  end.
Proof.
  destruct (stored_records file) as [old|] eqn:Hold.
  - exists (most_recent 1000 (old ++ tick :: ticks)).
    split; [by apply ticks_store_most_recent|]. split; [done|].
    rewrite most_recent_length. split; [lia|]. split; [done|].
    apply most_recent_suffix.
  - by apply ticks_fail_without_records.
Qed.

(** A single save never leaves more than 1000 records, whatever it wrote. *)
Lemma save_bounded (file : file_state) (metrics data : json) :
  save_metrics_to_file metrics file = Ok data ->
  exists records,
    stored_records (Document data) = Some records /\ (length records ≤ 1000)%nat.
Proof.
  intros Hsave.
  destruct (stored_records file) as [old|] eqn:Hold.
  - pose proof (save_stores_most_recent file metrics old Hold) as H.
    unfold file_after_save in H. rewrite Hsave in H.
    eexists. split; [exact H|]. rewrite most_recent_length. lia.
  - pose proof (save_fails_without_records file metrics Hold) as H.
    unfold file_after_save in H. rewrite Hsave in H. subst file.
    exists []. revert Hsave Hold. unfold save_metrics_to_file, stored_records. simpl.
    destruct data as [| | | | |d]; try discriminate.
    destruct (dict_get "records" d) as [[| | | |records|]|]; discriminate.
Qed.

Example log_of_1001 :
  stored_records
    (file_after_ticks (Document (JDict [("records", JList (replicate 1000 JNull))]))
       [JStr "new"])
  = Some (replicate 999 JNull ++ [JStr "new"]).
Proof. vm_compute. reflexivity. Qed.
End RollingLogFacts.

(** ** Alerts *)

Section AlertFacts.
Import Monitor Statements Scenarios.

Lemma above_no_api_alert bound mk v alerts :
  (forall n, is_api_alert (mk n) = false) ->
  above bound mk v = Ok alerts ->
  Forall (fun a => is_api_alert a = false) alerts.
Proof.
  intros Hmk. unfold above. destruct (as_number v) as [n|]; [|discriminate].
  simpl. intros [= <-]. destruct (bound <? n)%float; auto.
Qed.

Lemma gpu_alerts_no_api_alert items alerts :
  gpu_alerts items = Ok alerts -> Forall (fun a => is_api_alert a = false) alerts.
Proof.
  revert alerts. induction items as [|[gpu_id gpu_info] items IH]; intros alerts; simpl.
  - intros [= <-]. constructor.
  - destruct (gpu_alert gpu_id gpu_info) as [here|] eqn:Hhere; [|discriminate]. simpl.
    destruct (gpu_alerts items) as [others|]; [|discriminate]. simpl.
    intros [= <-]. apply Forall_app. split; [|by apply IH].
    unfold gpu_alert in Hhere. destruct gpu_info as [| | | | |info];
      try (injection Hhere as <-; constructor).
    destruct (dict_get "memory_percent" info) as [v|].
    + by eapply above_no_api_alert in Hhere.
    + injection Hhere as <-. constructor.
Qed.

Lemma system_alerts_no_api_alert metrics alerts :
  system_alerts metrics = Ok alerts -> Forall (fun a => is_api_alert a = false) alerts.
Proof.
  unfold system_alerts. destruct (dict_get "system" metrics) as [system|];
    [|intros [= <-]; constructor].
  destruct (get_or system "cpu_percent" _) as [cpu|]; [|discriminate]. simpl.
  destruct (above 90 CpuHigh cpu) as [a_cpu|] eqn:Hcpu; [|discriminate]. simpl.
  destruct (get_or system "memory" _) as [memory|]; [|discriminate]. simpl.
  destruct (get_or memory "percent" _) as [memory_percent|]; [|discriminate]. simpl.
  destruct (above 90 MemoryHigh memory_percent) as [a_memory|] eqn:Hmem; [|discriminate]. simpl.
  destruct (get_or system "disk" _) as [disk|]; [|discriminate]. simpl.
  destruct (get_or disk "percent" _) as [disk_percent|]; [|discriminate]. simpl.
  destruct (above 90 DiskHigh disk_percent) as [a_disk|] eqn:Hdisk; [|discriminate]. simpl.
  destruct (get_or system "gpu" _) as [gpu|]; [|discriminate]. simpl.
  destruct (items_of gpu) as [items|]; [|discriminate]. simpl.
  destruct (gpu_alerts items) as [a_gpu|] eqn:Hgpu; [|discriminate]. simpl.
  intros [= <-]. rewrite !Forall_app.
  eapply above_no_api_alert in Hcpu, Hmem, Hdisk; try done.
  by apply gpu_alerts_no_api_alert in Hgpu.
Qed.

Lemma performance_alerts_no_api_alert metrics alerts :
  performance_alerts metrics = Ok alerts -> Forall (fun a => is_api_alert a = false) alerts.
Proof.
  unfold performance_alerts. destruct (dict_get "performance" metrics) as [perf|];
    [|intros [= <-]; constructor].
  destruct (get_or perf "response_time" _) as [response_time|]; [|discriminate]. simpl.
  by apply above_no_api_alert.
Qed.

Lemma is_healthy_spec (status : option json) :
  is_healthy status = true <-> status = Some (JStr "healthy").
Proof.
  destruct status as [[| | |s| |]|]; simpl; try (split; [discriminate|congruence]).
  rewrite bool_decide_eq_true. split; congruence.
Qed.

Lemma no_api_alert_among (alerts : list alert) (status : json) :
  Forall (fun a => is_api_alert a = false) alerts -> ApiStatus status ∉ alerts.
Proof.
  intros Hall Hin. rewrite Forall_forall in Hall. by apply Hall in Hin.
Qed.

Lemma api_alert_between (before after : list alert) (status : json) :
  ApiStatus status ∈ before ++ ApiStatus status :: after.
Proof. apply elem_of_app. right. constructor. Qed.

(** C9. For a metrics record whose [api_health] entry is a dictionary, and
    whose system and performance sections are read without a type error,
    [check_alerts] returns a list that holds an API-status alert exactly when
    the entry's status is not ["healthy"]; an entry without a status (a
    failed probe that recorded only an error) gives the alert, printed with
    ["unknown"]. *)
Theorem check_alerts_api_status
    (metrics api : list (string * json)) (a_system a_performance : list alert) :
  dict_get "api_health" metrics = Some (JDict api) ->
  system_alerts metrics = Ok a_system ->
  performance_alerts metrics = Ok a_performance ->
  exists alerts,
    check_alerts metrics = Ok alerts
    /\ ((exists status, ApiStatus status ∈ alerts)
        <-> dict_get "status" api ≠ Some (JStr "healthy"))
    /\ (dict_get "status" api = None -> ApiStatus (JStr "unknown") ∈ alerts).
Proof.
  intros Hapi Hsys Hperf. unfold check_alerts, api_alerts.
  rewrite Hsys, Hapi, Hperf. simpl.
  pose proof (system_alerts_no_api_alert _ _ Hsys) as Hs.
  pose proof (performance_alerts_no_api_alert _ _ Hperf) as Hp.
  destruct (is_healthy (dict_get "status" api)) eqn:Hh; simpl.
  - apply is_healthy_spec in Hh. eexists. split; [done|]. split.
    + split; [|done]. intros [status Hin].
      simpl in Hin. apply elem_of_app in Hin as [Hin|Hin];
        by eapply no_api_alert_among in Hin.
    + rewrite Hh. discriminate.
  - eexists. split; [done|]. split.
    + split.
      * intros _ Heq. apply is_healthy_spec in Heq. congruence.
      * intros _. eexists. apply api_alert_between.
    + intros ->. apply api_alert_between.
Qed.

(** A failed health probe on a busy host: the alert is raised. *)
Lemma check_alerts_api_status_witness :
  exists alerts,
    check_alerts failed_probe_record = Ok alerts
    /\ ((exists status, ApiStatus status ∈ alerts)
        <-> dict_get "status" [("error", JStr "HTTP 503")] ≠ Some (JStr "healthy"))
    /\ (dict_get "status" [("error", JStr "HTTP 503")] = None
        -> ApiStatus (JStr "unknown") ∈ alerts).
Proof.
  exact (check_alerts_api_status failed_probe_record [("error", JStr "HTTP 503")]
           [CpuHigh 95%float] [] eq_refl eq_refl eq_refl).
Defined.

Example failed_probe_alerts :
  check_alerts failed_probe_record = Ok [CpuHigh 95%float; ApiStatus (JStr "unknown")].
Proof. vm_compute. reflexivity. Qed.

(** *** The records the monitor builds are read without error *)

Lemma above_number bound mk f : exists alerts, above bound mk (JNum f) = Ok alerts.
Proof. unfold above. simpl. eauto. Qed.

Lemma gpu_alerts_of_readings (gpus : list GpuReading) (label : nat -> string) :
  exists alerts,
    gpu_alerts
      (imap (fun i gpu =>
               (label i,
                JDict [ ("name", JStr gpu.(name));
                        ("memory_used", JNum gpu.(memoryUsed));
                        ("memory_total", JNum gpu.(memoryTotal));
                        ("memory_percent", JNum (gpu.(memoryUtil) * 100)%float);
                        ("temperature", JNum gpu.(temperature));
                        ("utilization", JNum (gpu.(load) * 100)%float) ]))
            gpus)
    = Ok alerts.
Proof.
  revert label. induction gpus as [|gpu gpus IH]; intros label.
  - by exists [].
  - destruct (IH (label ∘ S)) as [others Hothers].
    rewrite imap_cons. cbn [gpu_alerts]. unfold compose in Hothers.
    cbn [mbind result_bind]. unfold gpu_alert. simpl dict_get. unfold above. simpl as_number.
    cbn [mbind result_bind]. unfold compose. rewrite Hothers. eauto.
Qed.

Lemma system_alerts_of_report now now' host getGPUs api_health performance :
  exists alerts,
    system_alerts
      (generate_report now (get_system_metrics now' host getGPUs) api_health performance)
    = Ok alerts.
Proof.
  unfold system_alerts, generate_report, get_system_metrics. simpl dict_get.
  destruct host as [h|e]; [|by eexists].
  destruct (disk_total h =? 0)%float; [by eexists|].
  simpl. unfold above. simpl.
  destruct getGPUs as [gpus|e]; simpl; [|by eexists].
  destruct (gpu_alerts_of_readings gpus (fun i => "gpu_" +:+ pretty i)) as [a_gpu Hgpu].
  rewrite Hgpu. simpl. eauto.
Qed.


End AlertFacts.

(** ** The summary report *)

Section SummaryFacts.
Import Monitor Statements Scenarios.

Lemma traverse_app {A B} (f : A -> result B) (l1 l2 : list A) :
  traverse f (l1 ++ l2)
  = (a ← traverse f l1; b ← traverse f l2; Ok (a ++ b)).
Proof.
  induction l1 as [|x l1 IH]; simpl.
  - by destruct (traverse f l2).
  - destruct (f x) as [y|]; [|done]. simpl. rewrite IH.
    destruct (traverse f l1) as [a|]; [|done]. simpl.
    by destruct (traverse f l2).
Qed.

Lemma traverse_length {A B} (f : A -> result B) (l : list A) (ys : list B) :
  traverse f l = Ok ys -> length ys = length l.
Proof.
  revert ys. induction l as [|x l IH]; intros ys; simpl.
  - by intros [= <-].
  - destruct (f x) as [y|]; [|discriminate]. simpl.
    destruct (traverse f l) as [ys'|]; [|discriminate]. simpl.
    intros [= <-]. simpl. by rewrite (IH ys').
Qed.

(** A value that is not above zero is filtered out, wherever it stands. *)
Lemma positive_values_skip (before after : list json) (v : json) (n : float) :
  as_number v = Ok n -> (0 <? n)%float = false ->
  positive_values (before ++ v :: after) = positive_values (before ++ after).
Proof.
  intros Hn Hle. induction before as [|x before IH]; simpl.
  - rewrite Hn. simpl. destruct (positive_values after); simpl; [by rewrite Hle|done].
  - by rewrite IH.
Qed.

Lemma positive_of_skip extract (before after : list json) (r : json) :
  not_positive extract r ->
  positive_of extract (before ++ r :: after) = positive_of extract (before ++ after).
Proof.
  intros (v & n & Hv & Hn & Hle). unfold positive_of.
  rewrite !traverse_app. simpl. rewrite Hv. simpl.
  destruct (traverse extract before) as [a|]; [|done]. simpl.
  destruct (traverse extract after) as [b|]; [|done]. simpl.
  by eapply positive_values_skip.
Qed.

(** A missing field is read as the default 0. *)
Lemma missing_cpu_not_positive (r system : list (string * json)) :
  dict_get "system" r = Some (JDict system) ->
  dict_get "cpu_percent" system = None ->
  not_positive cpu_of (JDict r).
Proof.
  intros Hs Hc. exists (JNum 0), 0%float. unfold cpu_of. simpl. rewrite Hs. simpl.
  by rewrite Hc.
Qed.

Lemma missing_system_not_positive (r : list (string * json)) :
  dict_get "system" r = None ->
  not_positive cpu_of (JDict r) /\ not_positive memory_of (JDict r).
Proof.
  intros Hs. split; exists (JNum 0), 0%float; unfold cpu_of, memory_of; simpl;
    by rewrite Hs.
Qed.

Lemma missing_performance_not_positive (r : list (string * json)) :
  dict_get "performance" r = None -> not_positive response_time_of (JDict r).
Proof.
  intros Hs. exists (JNum 0), 0%float. unfold response_time_of. simpl. by rewrite Hs.
Qed.

(** *** The status table *)

Lemma count_status_sum (status : key) (status_counts : list (key * nat)) :
  sum_list (map snd (count_status status status_counts))
  = S (sum_list (map snd status_counts)).
Proof.
  induction status_counts as [|[k n] rest IH]; simpl; [done|].
  destruct (key_eqb status k); simpl; [done|]. rewrite IH. lia.
Qed.

Lemma count_statuses_sum (api_statuses : list key) :
  sum_list (map snd (count_statuses api_statuses)) = length api_statuses.
Proof.
  unfold count_statuses.
  assert (forall acc,
            sum_list (map snd (foldl (fun c k => count_status k c) acc api_statuses))
            = (sum_list (map snd acc) + length api_statuses)%nat) as H.
  { induction api_statuses as [|k ks IH]; intros acc; simpl; [lia|].
    rewrite IH, count_status_sum. lia. }
  by rewrite H.
Qed.

Lemma counted_lines (total : nat) (status_counts : list (key * nat)) :
  counted (map (fun '(status, count) => (status, count, percentage count total)) status_counts)
  = sum_list (map snd status_counts).
Proof.
  unfold counted. induction status_counts as [|[k n] rest IH]; simpl; [done|].
  by rewrite IH.
Qed.

(** What a printed summary holds, field by field. *)
Lemma summarize_fields (records : list json) (s : summary) :
  summarize records = Ok s ->
  aggregate cpu_of records = Ok s.(cpu)
  /\ aggregate memory_of records = Ok s.(memory)
  /\ aggregate response_time_of records = Ok s.(response_time)
  /\ s.(total_records) = length records
  /\ counted s.(status_lines) = length records
  /\ Forall (fun line => line.2 = percentage line.1.2 (length records)) s.(status_lines).
Proof.
  unfold summarize, aggregate, positive_of. intros H.
  destruct (traverse cpu_of records) as [c|]; [|discriminate]. simpl in *.
  destruct (traverse memory_of records) as [m|]; [|discriminate]. simpl in *.
  destruct (traverse response_time_of records) as [t|]; [|discriminate]. simpl in *.
  destruct (positive_values c) as [c'|]; [|discriminate]. simpl in *.
  destruct (positive_values m) as [m'|]; [|discriminate]. simpl in *.
  destruct (positive_values t) as [t'|]; [|discriminate]. simpl in *.
  destruct (match head records with Some r => _ | None => _ end) as [first|];
    [|discriminate]. simpl in *.
  destruct (match last records with Some r => _ | None => _ end) as [final|];
    [|discriminate]. simpl in *.
  destruct (traverse status_of records) as [statuses|] eqn:Hst; [|discriminate]. simpl in *.
  destruct (traverse hashable statuses) as [keys|] eqn:Hk; [|discriminate]. simpl in *.
  injection H as <-. simpl. repeat split; try done.
  - rewrite counted_lines, count_statuses_sum.
    apply traverse_length in Hst, Hk. congruence.
  - apply Forall_forall. intros line Hin. apply list_elem_of_fmap in Hin as ([k n] & -> & _).
    done.
Qed.

Lemma aggregate_skip extract (before after : list json) (r : json) :
  not_positive extract r ->
  aggregate extract (before ++ r :: after) = aggregate extract (before ++ after).
Proof. intros Hr. unfold aggregate. by rewrite positive_of_skip. Qed.

(** *** Readable logs are summarized *)

Lemma traverse_readable {A B} (f : A -> result B) (l : list A) :
  Forall (fun x => exists y, f x = Ok y) l ->
  exists ys, traverse f l = Ok ys /\ Forall2 (fun x y => f x = Ok y) l ys.
Proof.
  induction 1 as [|x l [y Hy] _ (ys & Hys & Hall)]; simpl.
  - exists []. by split.
  - exists (y :: ys). rewrite Hy, Hys. split; [done|]. by constructor.
Qed.

Lemma positive_values_readable {A} (f : A -> result json) (l : list A) (vs : list json) :
  Forall (fun x => exists v n, f x = Ok v /\ as_number v = Ok n) l ->
  Forall2 (fun x v => f x = Ok v) l vs ->
  exists ns, positive_values vs = Ok ns.
Proof.
  intros Hall H2. induction H2 as [|x v l vs Hx _ IH]; simpl; [by eexists|].
  apply Forall_cons in Hall as [(v' & n & Hv' & Hn) Hall].
  destruct (IH Hall) as [ns Hns]. assert (v' = v) as -> by congruence.
  rewrite Hn, Hns. simpl. by eexists.
Qed.

Lemma field_readable (f : json -> result json) (l : list json) :
  Forall (fun r => exists v n, f r = Ok v /\ as_number v = Ok n) l ->
  exists vs ns,
    traverse f l = Ok vs /\ positive_values vs = Ok ns.
Proof.
  intros Hall.
  destruct (traverse_readable f l) as (vs & Hvs & H2).
  { eapply Forall_impl; [exact Hall|]. intros r (v & n & Hv & _). by exists v. }
  destruct (positive_values_readable f l vs Hall H2) as [ns Hns].
  by exists vs, ns.
Qed.

Lemma timestamp_readable (r : option json) (records : list json) :
  Forall readable records ->
  (exists x, r = Some x /\ x ∈ records) ->
  exists stamp,
    match r with
    | Some r => get_or r "timestamp" (JStr "unknown")
    | None => Raise "IndexError: list index out of range"
    end = Ok stamp.
Proof.
  intros Hall (x & -> & Hin). rewrite Forall_forall in Hall.
  destruct (Hall x Hin) as [[d ->] _]. simpl. by eexists.
Qed.

(** A non-empty log of readable records is always summarized. *)
Lemma summarize_readable (r : json) (records : list json) :
  Forall readable (r :: records) -> exists s, summarize (r :: records) = Ok s.
Proof.
  intros Hall. unfold summarize.
  destruct (field_readable cpu_of (r :: records)) as (c & c' & -> & Hc').
  { eapply Forall_impl; [exact Hall|]. by intros x (_ & H & _). }
  destruct (field_readable memory_of (r :: records)) as (m & m' & -> & Hm').
  { eapply Forall_impl; [exact Hall|]. by intros x (_ & _ & H & _). }
  destruct (field_readable response_time_of (r :: records)) as (t & t' & -> & Ht').
  { eapply Forall_impl; [exact Hall|]. by intros x (_ & _ & _ & H & _). }
  cbn [mbind result_bind]. rewrite Hc', Hm', Ht'. cbn [mbind result_bind].
  destruct (timestamp_readable (head (r :: records)) (r :: records) Hall) as [first ->].
  { exists r. split; [done | constructor]. }
  destruct (timestamp_readable (last (r :: records)) (r :: records) Hall) as [final ->].
  { destruct (last (r :: records)) as [x|] eqn:Hlast.
    - exists x. split; [done|]. apply last_Some in Hlast as [l' ->]. set_solver.
    - by apply last_None in Hlast. }
  cbn [mbind result_bind].
  destruct (traverse_readable status_of (r :: records)) as (sts & -> & H2).
  { eapply Forall_impl; [exact Hall|]. intros x (_ & _ & _ & _ & v & k & Hv & _). by exists v. }
  cbn [mbind result_bind].
  assert (exists keys, traverse hashable sts = Ok keys) as [keys ->].
  { clear -Hall H2. revert Hall. induction H2 as [|x v l vs Hx _ IH]; intros Hall; simpl.
    - by eexists.
    - apply Forall_cons in Hall as [(_ & _ & _ & _ & v' & k & Hv' & Hk) Hall].
      destruct (IH Hall) as [keys Hkeys]. assert (v' = v) as -> by congruence.
      rewrite Hk, Hkeys. simpl. by eexists. }
  cbn [mbind result_bind]. by eexists.
Qed.



(** Two summaries of a log, with and without such a record, print the same
    aggregates. *)
Lemma summaries_agree (before after : list json) (r : json) (s s' : summary) :
  summarize (before ++ after) = Ok s ->
  summarize (before ++ r :: after) = Ok s' ->
  (not_positive cpu_of r -> s'.(cpu) = s.(cpu))
  /\ (not_positive memory_of r -> s'.(memory) = s.(memory))
  /\ (not_positive response_time_of r -> s'.(response_time) = s.(response_time))
  /\ counted s'.(status_lines) = S (counted s.(status_lines)).
Proof.
  intros Hs Hs'.
  apply summarize_fields in Hs as (Hc & Hm & Ht & _ & Hn & _).
  apply summarize_fields in Hs' as (Hc' & Hm' & Ht' & _ & Hn' & _).
  repeat split.
  - intros Hr. rewrite (aggregate_skip _ _ _ _ Hr) in Hc'. congruence.
  - intros Hr. rewrite (aggregate_skip _ _ _ _ Hr) in Hm'. congruence.
  - intros Hr. rewrite (aggregate_skip _ _ _ _ Hr) in Ht'. congruence.
  - rewrite Hn', Hn, !length_app. simpl. lia.
Qed.

(** A summary with only such records prints no aggregate at all. *)
Example idle_log_summary :
  exists s,
    summarize [idle_record] = Ok s
    /\ s.(cpu) = None /\ s.(memory) = None /\ s.(response_time) = None
    /\ counted s.(status_lines) = 1%nat.
Proof. eexists. split; [vm_compute; reflexivity|]. repeat split. Qed.
End SummaryFacts.

(** * Further properties of the code *)

(** ** The prompt formatter, continued *)

Section FormatterMore.
Import Formatter.

Lemma format_step_user (acc content : string) :
  format_step acc {[ "role" := "user"; "content" := content ]}
  = acc +:+ ("<|im_start|>user" +:+ nl +:+ content +:+ "<|im_end|>" +:+ nl).
Proof.
  unfold format_step.
  rewrite lookup_insert_eq, lookup_insert_ne, lookup_singleton_eq by done.
  done.
Qed.

Lemma format_step_assistant (acc content : string) :
  format_step acc {[ "role" := "assistant"; "content" := content ]}
  = acc +:+ ("<|im_start|>assistant" +:+ nl +:+ content +:+ "<|im_end|>" +:+ nl).
Proof.
  unfold format_step.
  rewrite lookup_insert_eq, lookup_insert_ne, lookup_singleton_eq by done.
  done.
Qed.

(** X1. [format_chat_messages] does not escape the delimiters: a user turn
    whose content holds the end marker followed by an assistant header gives
    the same prompt as that user turn cut there and followed by an assistant
    turn, wherever it stands in the conversation. *)
Theorem format_does_not_escape_delimiters
    (before after : list (gmap string string)) (said forged : string) :
  format_chat_messages
    (before
       ++ {[ "role" := "user";
             "content" := said +:+ "<|im_end|>" +:+ nl
                          +:+ "<|im_start|>assistant" +:+ nl +:+ forged ]}
       :: after)
  = format_chat_messages
      (before
         ++ {[ "role" := "user"; "content" := said ]}
         :: {[ "role" := "assistant"; "content" := forged ]}
         :: after).
Proof.
  unfold format_chat_messages. f_equal.
  rewrite !foldl_app. cbn [foldl]. f_equal.
  rewrite !format_step_user, format_step_assistant.
  rewrite !append_assoc. reflexivity.
Qed.

(** X2. The prompt of a conversation extended by further turns is the text
    produced for the earlier turns followed by the prompt of the further
    turns alone: what was produced for earlier turns is never rewritten. *)
Theorem format_chat_messages_app (earlier further : list (gmap string string)) :
  format_chat_messages (earlier ++ further)
  = foldl format_step "" earlier +:+ format_chat_messages further.
Proof.
  unfold format_chat_messages. rewrite foldl_app.
  rewrite (format_loop further (foldl format_step "" earlier)).
  rewrite (format_loop further ""). cbn [String.append].
  by rewrite !append_assoc.
Qed.
End FormatterMore.

(** ** The resolver, continued *)

Section ResolverMore.
Import ModelConfig.

(** X3. The two servers resolve the same values: for every request the
    keywords given to [model.generate] hold, for [max_new_tokens],
    [temperature], [top_p] and [repetition_penalty], exactly the values of
    the engine's sampling parameters, each being the override when it is
    present and non-zero and the configured default otherwise. *)
Theorem servers_resolve_same_values (request : ChatRequest) :
  dict_get "max_new_tokens" (ModelServer.generation_kwargs_of request)
  = Some (KInt (VllmServer.sp_max_tokens (VllmServer.sampling_params_of request)))
  /\ dict_get "temperature" (ModelServer.generation_kwargs_of request)
     = Some (KFloat (VllmServer.sp_temperature (VllmServer.sampling_params_of request)))
  /\ dict_get "top_p" (ModelServer.generation_kwargs_of request)
     = Some (KFloat (VllmServer.sp_top_p (VllmServer.sampling_params_of request)))
  /\ dict_get "repetition_penalty" (ModelServer.generation_kwargs_of request)
     = Some (KFloat (VllmServer.sp_repetition_penalty (VllmServer.sampling_params_of request)))
  /\ VllmServer.sp_max_tokens (VllmServer.sampling_params_of request)
     = match request.(max_tokens) with
       | Some z => if z =? 0 then MAX_TOKENS else z
       | None => MAX_TOKENS
       end
  /\ VllmServer.sp_temperature (VllmServer.sampling_params_of request)
     = match request.(temperature) with
       | Some t => if (t =? 0)%float then TEMPERATURE else t
       | None => TEMPERATURE
       end
  /\ VllmServer.sp_top_p (VllmServer.sampling_params_of request)
     = match request.(top_p) with
       | Some p => if (p =? 0)%float then TOP_P else p
       | None => TOP_P
       end.
Proof.
  unfold ModelServer.generation_kwargs_of, VllmServer.sampling_params_of.
  cbn [VllmServer.sp_max_tokens VllmServer.sp_temperature VllmServer.sp_top_p
       VllmServer.sp_repetition_penalty].
  unfold or_int, or_float, truthy_int, truthy_float.
  destruct (max_tokens request) as [z|]; [destruct (z =? 0)|];
    (destruct (temperature request) as [t|]; [destruct (t =? 0)%float|]);
    (destruct (top_p request) as [p|]; [destruct (p =? 0)%float|]);
    cbn [negb]; repeat split;
    rewrite ?dict_get_set_eq; try reflexivity;
    rewrite ?dict_get_set_ne by done; rewrite ?dict_get_set_eq; try reflexivity;
    rewrite ?dict_get_set_ne by done; rewrite ?dict_get_set_eq; reflexivity.
Qed.
End ResolverMore.

(** ** The chat gateway, continued *)

Section GatewayMore.
Import ModelConfig Statements Scenarios.

(** X4. A chat endpoint answers 503 exactly when its handle is not loaded
    (the engine; the model or the tokenizer), and it then makes no call on
    the backend. *)
Theorem not_loaded_iff_503
    verify_args engine request_id model tokenizer start_time end_time now request :
  ((exists detail,
      (VllmServer.chat verify_args engine request_id start_time end_time request).2
      = HTTPException 503 detail)
   <-> engine = None)
  /\ ((exists detail,
         (VllmServer.chat_stream verify_args engine request_id now request).2
         = HTTPException 503 detail)
      <-> engine = None)
  /\ ((exists detail,
         (ModelServer.chat model tokenizer start_time end_time request).2
         = HTTPException 503 detail)
      <-> model = None \/ tokenizer = None)
  /\ (engine = None ->
      (VllmServer.chat verify_args engine request_id start_time end_time request).1 = []
      /\ (VllmServer.chat_stream verify_args engine request_id now request).1 = [])
  /\ (model = None \/ tokenizer = None ->
      (ModelServer.chat model tokenizer start_time end_time request).1 = []).
Proof.
  split; [split|].
  { intros [detail H]. unfold VllmServer.chat in H.
    destruct engine as [engine|]; [|done]. exfalso.
    destruct (verify_args _); [|discriminate].
    destruct (VllmServer.wait_final _) as [[final|]|]; discriminate. }
  { intros ->. by eexists. }
  split; [split|].
  { intros [detail H]. unfold VllmServer.chat_stream in H.
    destruct engine as [engine|]; [|done]. exfalso.
    destruct (verify_args _); discriminate. }
  { intros ->. by eexists. }
  split; [split|].
  { intros [detail H]. unfold ModelServer.chat in H.
    destruct model as [model|]; [|by left].
    destruct tokenizer as [tokenizer|]; [|by right]. exfalso.
    destruct (ModelServer.encode _ _) as [input_ids|]; [|discriminate].
    destruct (ModelServer.generate _ _ _) as [outputs|]; [|discriminate].
    destruct (ModelServer.decode _ _); discriminate. }
  { intros [-> | ->]; [by eexists|]. destruct model; by eexists. }
  split.
  { by intros ->. }
  { intros [-> | ->]; [done|]. by destruct model. }
Qed.

Lemma wait_final_first_finished (unfinished : list VllmServer.RequestOutput)
    (final : VllmServer.RequestOutput) (rest : list VllmServer.step) :
  Forall (fun o => o.(VllmServer.finished) = false) unfinished ->
  final.(VllmServer.finished) = true ->
  VllmServer.wait_final (map VllmServer.Yield unfinished ++ VllmServer.Yield final :: rest)
  = Ok (Some final).
Proof.
  intros Hun Hfin. induction Hun as [|o unfinished Ho _ IH]; simpl.
  - by rewrite Hfin.
  - by rewrite Ho.
Qed.

(** X5. The plain call of the engine server answers with the first finished
    output alone: its text, the length of its prompt tokens and of its
    output tokens. The outputs yielded before it and whatever the generator
    would yield after it have no influence. *)
Theorem chat_answers_first_finished
    verify_args engine request_id start_time end_time request
    (unfinished : list VllmServer.RequestOutput) (final : VllmServer.RequestOutput)
    (rest : list VllmServer.step) :
  verify_args (VllmServer.sampling_params_of request) = Ok tt ->
  engine.(VllmServer.generate) (Formatter.format_chat_messages request.(messages))
    (VllmServer.sampling_params_of request) request_id
  = map VllmServer.Yield unfinished ++ VllmServer.Yield final :: rest ->
  Forall (fun o => o.(VllmServer.finished) = false) unfinished ->
  final.(VllmServer.finished) = true ->
  (VllmServer.chat verify_args (Some engine) request_id start_time end_time request).2
  = Respond
      {| response := final.(VllmServer.text);
         usage :=
           {| prompt_tokens := Z.of_nat (length final.(VllmServer.prompt_token_ids));
              completion_tokens := Z.of_nat (length final.(VllmServer.token_ids));
              total_tokens := Z.of_nat (length final.(VllmServer.prompt_token_ids))
                              + Z.of_nat (length final.(VllmServer.token_ids)) |};
         model := MODEL_NAME;
         processing_time := (end_time - start_time)%float |}.
Proof.
  intros Hverify Hgen Hun Hfin. unfold VllmServer.chat.
  rewrite Hverify, Hgen, (wait_final_first_finished _ _ _ Hun Hfin). reflexivity.
Qed.

(** The engine that reports ["he"] and then finishes with ["hello"]. *)
Lemma chat_answers_first_finished_witness :
  exists r,
    (VllmServer.chat accept_all (Some growing_engine) "id-1" 0%float 1%float hi_request).2
    = Respond r
    /\ r.(response) = "hello"
    /\ r.(usage).(total_tokens) = 5.
Proof.
  eexists. split; [|split].
  - apply (chat_answers_first_finished accept_all growing_engine "id-1" 0%float 1%float
             hi_request
             [ {| VllmServer.finished := false; VllmServer.text := "he";
                  VllmServer.token_ids := [104]; VllmServer.prompt_token_ids := [1; 2; 3] |} ]
             {| VllmServer.finished := true; VllmServer.text := "hello";
                VllmServer.token_ids := [104; 105]; VllmServer.prompt_token_ids := [1; 2; 3] |}
             []).
    + reflexivity.
    + reflexivity.
    + constructor; [reflexivity | constructor].
    + reflexivity.
  - reflexivity.
  - reflexivity.
Defined.

(** X6. The frames of [generate_stream] follow one protocol. When the
    generator reaches a finished output, the stream is a run of content
    chunks (one per unfinished output, each with a [content] and no finish
    reason), then one closing chunk with an empty delta and finish reason
    ["stop"], then the sentinel, which occurs nowhere else, and nothing cut
    the stream. When the generator raises or ends before a finished output,
    only content chunks are sent and the sentinel never is. *)
Theorem stream_protocol request_id now i (results_generator : list VllmServer.step) :
  if completes results_generator then
    exists body closing,
      VllmServer.generate_stream request_id now i results_generator
      = (body ++ [closing; VllmServer.DONE], None)
      /\ Forall content_chunk body
      /\ closing_chunk closing
      /\ length body = length (unfinished_texts results_generator)
  else
    Forall content_chunk (VllmServer.generate_stream request_id now i results_generator).1
    /\ length (VllmServer.generate_stream request_id now i results_generator).1
       = length (unfinished_texts results_generator).
Proof.
  revert i. induction results_generator as [|[o|e] rest IH]; intros i.
  - simpl. by split.
  - cbn [completes VllmServer.generate_stream unfinished_texts].
    destruct (VllmServer.finished o); cbn [negb].
    + eexists [], _. split; [reflexivity|]. split; [constructor|].
      split; [by eexists|done].
    + specialize (IH (S i)). destruct (completes rest).
      * destruct IH as (body & closing & -> & Hbody & Hclosing & Hlen).
        eexists (_ :: body), closing. split; [reflexivity|].
        split; [|split; [done|by simpl; rewrite Hlen]].
        constructor; [|done]. by eexists _, _.
      * destruct (VllmServer.generate_stream request_id now (S i) rest) as [frames exn].
        destruct IH as [Hframes Hlen]. simpl in *. split; [|by rewrite Hlen].
        constructor; [|done]. by eexists _, _.
  - simpl. by split.
Qed.

Lemma content_chunk_not_done (frames : list VllmServer.frame) :
  Forall content_chunk frames -> VllmServer.DONE ∉ frames.
Proof.
  intros Hall Hin. rewrite Forall_forall in Hall.
  destruct (Hall _ Hin) as (chunk & text & Heq & _). discriminate.
Qed.

Lemma stream_chunks_of_generate_stream request_id now i results_generator :
  Client.stream_chunks
    (VllmServer.generate_stream request_id now i results_generator).1
  = filter (fun text => text ≠ "") (unfinished_texts results_generator).
Proof.
  revert i. induction results_generator as [|[o|e] rest IH]; intros i; try done.
  cbn [VllmServer.generate_stream unfinished_texts].
  destruct (VllmServer.finished o); [done|]. cbn [negb].
  specialize (IH (S i)).
  destruct (VllmServer.generate_stream _ _ _ rest) as [frames exn].
  cbn [fst Client.stream_chunks VllmServer.choices VllmServer.delta_content default] in *.
  rewrite filter_cons, IH. unfold id.
  destruct (decide (VllmServer.text o = "")), (decide (VllmServer.text o ≠ "")); done.
Qed.

(** X7. What the example client yields from the stream of the server: the
    texts of the unfinished outputs that are not empty, in order, followed
    by one error line when the connection was cut; the closing chunk and the
    sentinel yield nothing, so the text of the finished output never reaches
    the caller. *)
Theorem client_yields_unfinished_texts
    request_id now i (results_generator : list VllmServer.step) (cut : option string) :
  Client._stream_chat
    (Ok ((VllmServer.generate_stream request_id now i results_generator).1, cut))
  = filter (fun text => text ≠ "") (unfinished_texts results_generator)
    ++ match cut with
       | Some e => ["Error: " +:+ e]
       | None => []
       end.
Proof.
  unfold Client._stream_chat.
  destruct cut; rewrite stream_chunks_of_generate_stream; [done|by rewrite app_nil_r].
Qed.

(** X8. On the blocking server a successful call has made exactly three
    calls, in order: the tokenizer on the formatted prompt, the model on the
    prompt tokens with the resolved keywords, and the decoder on the tokens
    that follow the prompt in the output. Its response is the decoded text,
    its prompt count the number of prompt tokens and, when the model returns
    the prompt followed by the new tokens, its completion count the number
    of decoded tokens. *)
Theorem completion_counts_decoded_tokens
    (model : ModelServer.Model) (tokenizer : ModelServer.Tokenizer)
    start_time end_time request calls r :
  extends_prompt model ->
  ModelServer.chat (Some model) (Some tokenizer) start_time end_time request
  = (calls, Respond r) ->
  exists input_ids outputs,
    tokenizer.(ModelServer.encode) (Formatter.format_chat_messages request.(messages))
    = Ok input_ids
    /\ model.(ModelServer.generate) input_ids (ModelServer.generation_kwargs_of request)
       = Ok outputs
    /\ calls = [ ModelServer.CallEncode (Formatter.format_chat_messages request.(messages));
                 ModelServer.CallGenerate input_ids (ModelServer.generation_kwargs_of request);
                 ModelServer.CallDecode (drop (length input_ids) outputs) ]
    /\ tokenizer.(ModelServer.decode) (drop (length input_ids) outputs) = Ok r.(response)
    /\ r.(usage).(prompt_tokens) = Z.of_nat (length input_ids)
    /\ r.(usage).(completion_tokens)
       = Z.of_nat (length (drop (length input_ids) outputs)).
Proof.
  unfold ModelServer.chat. intros Hext H.
  destruct (ModelServer.encode _ _) as [input_ids|] eqn:Henc; [|discriminate].
  destruct (ModelServer.generate _ _ _) as [outputs|] eqn:Hgen; [|discriminate].
  destruct (ModelServer.decode _ _) as [text|] eqn:Hdec; [|discriminate].
  injection H as <- <-. pose proof (Hext _ _ _ Hgen) as Hlen.
  exists input_ids, outputs.
  split; [done|]. split; [done|]. split; [done|]. split; [done|]. split; [done|].
  simpl. rewrite length_drop. lia.
Qed.

Lemma completion_counts_decoded_tokens_witness :
  exists (input_ids outputs : list Z) r,
    (ModelServer.chat (Some stub_model) (Some stub_tokenizer) 0%float 1%float hi_request).2
    = Respond r
    /\ ModelServer.decode stub_tokenizer (drop (length input_ids) outputs) = Ok r.(response)
    /\ r.(usage).(prompt_tokens) = Z.of_nat (length input_ids)
    /\ r.(usage).(completion_tokens) = Z.of_nat (length (drop (length input_ids) outputs)).
Proof.
  destruct (completion_counts_decoded_tokens stub_model stub_tokenizer 0%float 1%float
              hi_request _ _ stub_model_extends_prompt eq_refl)
    as (input_ids & outputs & _ & _ & _ & Hdec & Hp & Hc).
  exists input_ids, outputs. eexists. split; [reflexivity|].
  split; [exact Hdec|]. split; [exact Hp|exact Hc].
Defined.
End GatewayMore.

(** ** The health reporter, continued *)

Section HealthMore.
Import Health Scenarios.

(** X9. [health_check] returns a snapshot exactly when the host memory is
    read and either no device is enumerated, or the enumeration failed and
    the error marker passes as a float; the snapshot then reports the status
    ["healthy"] exactly for a loaded handle, the memory reading as it was
    read, and the loaded flag. *)
Theorem health_check_returns_iff
    (float_of_str : string -> option float) (handle : option unit)
    (getGPUs : result (list GPU)) (virtual_memory : result float) :
  ((exists snapshot,
      health_check float_of_str handle getGPUs virtual_memory = Ok snapshot)
   <-> (exists memory_percent, virtual_memory = Ok memory_percent)
       /\ (getGPUs = Ok []
           \/ (exists e, getGPUs = Raise e) /\ is_Some (float_of_str gpu_error_marker)))
  /\ (forall snapshot,
        health_check float_of_str handle getGPUs virtual_memory = Ok snapshot ->
        (snapshot.(status) = "healthy" <-> handle ≠ None)
        /\ snapshot.(model_loaded) = is_not_None handle
        /\ virtual_memory = Ok snapshot.(system_memory)).
Proof.
  split; [split|].
  - intros [snapshot H]. unfold health_check in H.
    destruct virtual_memory as [m|e]; [|by destruct getGPUs].
    split; [by eexists|].
    destruct getGPUs as [[|gpu gpus]|e]; [by left|discriminate|].
    right. split; [by eexists|]. simpl in H.
    destruct (float_of_str gpu_error_marker); [done|discriminate].
  - intros [[m ->] [-> | [[e ->] [f Hf]]]].
    + by eexists.
    + unfold health_check. simpl. rewrite Hf. by eexists.
  - intros snapshot H.
    destruct (health_status_iff_loaded _ _ _ _ _ H) as [Hs Hl].
    split; [done|]. split; [done|].
    unfold health_check in H. destruct virtual_memory as [m|e]; [|by destruct getGPUs].
    destruct (get_system_info getGPUs (Ok m)) as [[g m']|] eqn:Hinfo; [|discriminate].
    unfold get_system_info in Hinfo. simpl in Hinfo. injection Hinfo as _ <-.
    simpl in H. destruct (validate_gpu_memory _ _); [|discriminate].
    by injection H as <-.
Qed.
End HealthMore.

(** ** The monitor, continued *)

Section MonitorMore.
Import Monitor MonitorLoop Statements Scenarios.

Lemma system_alerts_without_host now now' e getGPUs api_health performance :
  system_alerts
    (generate_report now (get_system_metrics now' (Raise e) getGPUs) api_health performance)
  = Ok [].
Proof. reflexivity. Qed.

Lemma performance_alerts_of_probe now system_metrics api_health probe elapsed :
  performance_alerts
    (generate_report now system_metrics api_health (test_api_performance probe elapsed))
  = Ok (if (probe_readable probe && (30 <? elapsed)%float)%bool
        then [ResponseSlow elapsed] else []).
Proof.
  unfold performance_alerts, generate_report, test_api_performance, probe_readable.
  simpl dict_get.
  destruct probe as [[status_code body]|e]; [|done].
  destruct (status_code =? 200); [|by destruct body].
  destruct body as [| | | | |body]; try done. simpl.
  destruct (dict_get "usage" body) as [[| | | | |usage]|]; simpl; try done;
    unfold above; simpl; by destruct (30 <? elapsed)%float.
Qed.

Lemma probe_failed_not_readable (probe : result (Z * json)) :
  probe_failed probe = true -> probe_readable probe = false.
Proof.
  destruct probe as [[status_code body]|e]; simpl; [|done].
  destruct (status_code =? 200); [done|]. by destruct body.
Qed.

Lemma failed_health_is_error (probe : result (Z * json)) :
  probe_failed probe = true ->
  exists e, get_api_health probe = JDict [("error", JStr e)].
Proof.
  destruct probe as [[status_code body]|e]; simpl; [|by eexists].
  destruct (status_code =? 200); [done|]. by eexists.
Qed.

(** X10. A tick whose health probe raised, or was answered with another
    status than 200, always yields the API-status alert, printed with
    ["unknown"], whatever the other readings of the tick are. *)
Theorem failed_health_probe_alerts (t : tick) :
  probe_failed t.(health_probe) = true ->
  exists alerts,
    check_alerts (report_of t) = Ok alerts /\ ApiStatus (JStr "unknown") ∈ alerts.
Proof.
  intros Hfailed. destruct (failed_health_is_error _ Hfailed) as [e He].
  unfold report_of.
  destruct (system_alerts_of_report t.(now_report) t.(now_system) t.(host) t.(getGPUs)
              (get_api_health t.(health_probe))
              (test_api_performance t.(chat_probe) t.(elapsed))) as [a_system Hsys].
  unfold check_alerts. rewrite Hsys, performance_alerts_of_probe.
  unfold api_alerts. simpl dict_get. rewrite He. simpl.
  eexists. split; [done|]. apply api_alert_between.
Qed.

Lemma failed_health_probe_alerts_witness :
  exists alerts,
    check_alerts (report_of blind_tick) = Ok alerts /\ ApiStatus (JStr "unknown") ∈ alerts.
Proof. exact (failed_health_probe_alerts blind_tick eq_refl). Defined.

(** X11. A latency alert is raised exactly when the chat probe was answered
    with status 200 and a readable body and its round trip took more than
    30 seconds. A probe that failed, a request that timed out included,
    records no response time and never raises it. *)
Theorem latency_alert_iff (t : tick) :
  performance_alerts (report_of t)
  = Ok (if (probe_readable t.(chat_probe) && (30 <? t.(elapsed))%float)%bool
        then [ResponseSlow t.(elapsed)] else [])
  /\ (probe_failed t.(chat_probe) = true -> performance_alerts (report_of t) = Ok []).
Proof.
  unfold report_of. split; [apply performance_alerts_of_probe|].
  intros Hfailed. rewrite performance_alerts_of_probe.
  by rewrite (probe_failed_not_readable _ Hfailed).
Qed.

Lemma latency_alert_iff_witness :
  performance_alerts (report_of healthy_tick) = Ok [ResponseSlow 45%float]
  /\ performance_alerts (report_of blind_tick) = Ok [].
Proof.
  split.
  - exact (proj1 (latency_alert_iff healthy_tick)).
  - exact (proj2 (latency_alert_iff blind_tick) eq_refl).
Defined.

(** X12. When the readings of the host failed, no CPU, memory, disk or GPU
    alert is raised, and when the chat probe failed as well the alerts of
    the tick are decided by the health entry alone: none for the status
    ["healthy"], the API-status alert otherwise. *)
Theorem failed_readings_leave_health_alert_only (t : tick) (e : string) (api : list (string * json)) :
  t.(host) = Raise e ->
  probe_failed t.(chat_probe) = true ->
  get_api_health t.(health_probe) = JDict api ->
  check_alerts (report_of t)
  = Ok (if is_healthy (dict_get "status" api) then []
        else [ApiStatus (default (JStr "unknown") (dict_get "status" api))]).
Proof.
  intros Hhost Hchat Hapi. unfold report_of, check_alerts.
  rewrite Hhost, system_alerts_without_host, performance_alerts_of_probe.
  rewrite (probe_failed_not_readable _ Hchat).
  unfold api_alerts. simpl dict_get. rewrite Hapi.
  by destruct (is_healthy (dict_get "status" api)).
Qed.

Lemma failed_readings_leave_health_alert_only_witness :
  check_alerts (report_of blind_tick) = Ok [ApiStatus (JStr "unknown")].
Proof.
  exact (failed_readings_leave_health_alert_only blind_tick "psutil failed" [("error", JStr "HTTP 503")]
           eq_refl eq_refl eq_refl).
Defined.
(** *** The log line and the loop *)

Lemma max_gpu_memory_of_readings (gpus : list GpuReading) (label : nat -> string) (acc : float) :
  exists m,
    max_gpu_memory acc
      (imap (fun i gpu =>
               (label i,
                JDict [ ("name", JStr gpu.(name));
                        ("memory_used", JNum gpu.(memoryUsed));
                        ("memory_total", JNum gpu.(memoryTotal));
                        ("memory_percent", JNum (gpu.(memoryUtil) * 100)%float);
                        ("temperature", JNum gpu.(temperature));
                        ("utilization", JNum (gpu.(load) * 100)%float) ]))
            gpus)
    = Ok m.
Proof.
  revert label acc. induction gpus as [|gpu gpus IH]; intros label acc.
  - by eexists.
  - rewrite imap_cons. cbn [max_gpu_memory]. simpl dict_get.
    unfold max_with. simpl as_number. cbn [mbind result_bind].
    apply (IH (label ∘ S)).
Qed.

Lemma response_time_of_probe (probe : result (Z * json)) (elapsed : float) :
  exists fields f,
    test_api_performance probe elapsed = JDict fields
    /\ default (JNum 0) (dict_get "response_time" fields) = JNum f.
Proof.
  unfold test_api_performance.
  destruct probe as [[status_code body]|e]; [|by eexists _, _].
  destruct (status_code =? 200); [|by eexists _, _].
  destruct (get_or body "processing_time" _) as [pt|]; simpl; [|by eexists _, _].
  destruct (get_or body "usage" _) as [usage|]; simpl; [|by eexists _, _].
  destruct (get_or usage "completion_tokens" _) as [tg|]; simpl; by eexists _, _.
Qed.

(** The line logged for a report: the figures of the system section never
    fail, so only the health entry can. *)
Lemma log_metrics_of_report (t : tick) :
  exists cpu memory gpu_memory response_time,
    log_metrics (report_of t)
    = (api_status ← get_or (get_api_health t.(health_probe)) "status" (JStr "unknown");
       Ok {| logged_cpu := cpu;
             logged_memory := memory;
             logged_gpu_memory := gpu_memory;
             logged_api_status := api_status;
             logged_response_time := response_time |}).
Proof.
  unfold report_of, log_metrics, generate_report.
  destruct (response_time_of_probe t.(chat_probe) t.(elapsed)) as (fields & f & -> & Hf).
  assert (get_or (JDict fields) "response_time" (JNum 0) = Ok (JNum f)) as Hrt
    by (cbn [get_or]; by rewrite Hf).
  set (api := get_api_health (health_probe t)).
  simpl dict_get. cbn [default].
  unfold get_system_metrics.
  destruct t.(host) as [h|e].
  - destruct (disk_total h =? 0)%float.
    + eexists _, _, _, _. simpl.
      destruct (get_or api "status" (JStr "unknown")); [|done].
      cbn [mbind result_bind get_or]. rewrite Hf. reflexivity.
    + destruct t.(getGPUs) as [gpus|e].
      * destruct (max_gpu_memory_of_readings gpus (fun i => "gpu_" +:+ pretty i) 0%float)
          as [m Hm].
        eexists _, _, m, _.
        do 5 (simpl dict_get;
              cbn [get_or default from_option id mbind result_bind gpu_info_of]).
        rewrite Hm. cbn [mbind result_bind].
        destruct (get_or api "status" (JStr "unknown")); [|done].
        cbn [mbind result_bind get_or]. rewrite Hf. reflexivity.
      * eexists _, _, _, _. simpl.
        destruct (get_or api "status" (JStr "unknown")); [|done].
        cbn [mbind result_bind get_or]. rewrite Hf. reflexivity.
  - eexists _, _, _, _. simpl.
    destruct (get_or api "status" (JStr "unknown")); [|done].
    cbn [mbind result_bind get_or]. rewrite Hf. reflexivity.
Qed.




(** X14. A health endpoint that answers 200 with a body that is no
    dictionary stops the monitor: the log line of that tick raises, the
    exception ends the loop, the record of the tick is not saved and no
    later tick runs. *)
Theorem loop_stops_on_odd_health_body
    (t : tick) (later : list tick) (log : file_state) (body : json) :
  t.(health_probe) = Ok (200, body) ->
  is_dict body = false ->
  run_monitoring_loop (t :: later) log
  = {| file := log;
       lines := [];
       warnings := [];
       ended := Crashed "AttributeError: object has no attribute 'get'" |}.
Proof.
  intros Hprobe Hbody. cbn [run_monitoring_loop].
  destruct (log_metrics_of_report t) as (c & m & g & r & ->).
  rewrite Hprobe. simpl get_api_health. by destruct body.
Qed.

Lemma loop_stops_on_odd_health_body_witness :
  run_monitoring_loop [odd_health_tick; healthy_tick] Missing
  = {| file := Missing;
       lines := [];
       warnings := [];
       ended := Crashed "AttributeError: object has no attribute 'get'" |}.
Proof.
  exact (loop_stops_on_odd_health_body odd_health_tick [healthy_tick] Missing (JList [])
           eq_refl eq_refl).
Defined.

Lemma log_metrics_status (metrics : list (string * json)) (line : log_line) (api : json) :
  dict_get "api_health" metrics = Some api ->
  log_metrics metrics = Ok line ->
  exists d,
    api = JDict d
    /\ line.(logged_api_status) = default (JStr "unknown") (dict_get "status" d).
Proof.
  unfold log_metrics. intros Hapi H. rewrite Hapi in H. cbn [default] in H.
  destruct (get_or _ "cpu_percent" _) as [cpu|]; [|discriminate]. cbn [mbind result_bind] in H.
  destruct (get_or _ "memory" _) as [memory|]; [|discriminate]. cbn [mbind result_bind] in H.
  destruct (get_or memory "percent" _) as [percent|]; [|discriminate].
  cbn [mbind result_bind] in H.
  destruct (get_or _ "gpu" _) as [gpu|]; [|discriminate]. cbn [mbind result_bind] in H.
  destruct (match gpu with JDict items => _ | _ => _ end) as [g|]; [|discriminate].
  cbn [mbind result_bind] in H.
  destruct api as [| | | | |d]; try discriminate. cbn [get_or mbind result_bind] in H.
  destruct (get_or _ "response_time" _) as [rt|]; [|discriminate].
  cbn [mbind result_bind] in H.
  destruct (format_fixed cpu); [|discriminate]. cbn [mbind result_bind] in H.
  destruct (format_fixed percent); [|discriminate]. cbn [mbind result_bind] in H.
  destruct (format_fixed rt); [|discriminate]. cbn [mbind result_bind] in H.
  injection H as <-. by exists d.
Qed.

(** X15. The log line and the alerts of a record agree on the API: whenever
    both are produced for a record with an [api_health] entry, the status
    written in the log line is ["healthy"] exactly when no API-status alert
    is raised. *)
Theorem logged_status_agrees_with_alert
    (metrics : list (string * json)) (api : json) (line : log_line) (alerts : list alert) :
  dict_get "api_health" metrics = Some api ->
  log_metrics metrics = Ok line ->
  check_alerts metrics = Ok alerts ->
  line.(logged_api_status) = JStr "healthy" <-> (forall status, ApiStatus status ∉ alerts).
Proof.
  intros Hapi Hlog Halerts.
  destruct (log_metrics_status _ _ _ Hapi Hlog) as (d & -> & Hstatus).
  unfold check_alerts in Halerts.
  destruct (system_alerts metrics) as [a_system|] eqn:Hsys; [|discriminate].
  cbn [mbind result_bind] in Halerts.
  unfold api_alerts in Halerts. rewrite Hapi in Halerts.
  destruct (performance_alerts metrics) as [a_perf|] eqn:Hperf;
    [|by destruct (is_healthy (dict_get "status" d))].
  pose proof (system_alerts_no_api_alert _ _ Hsys) as Hs.
  pose proof (performance_alerts_no_api_alert _ _ Hperf) as Hp.
  rewrite Hstatus.
  destruct (is_healthy (dict_get "status" d)) eqn:Hh;
    cbn [mbind result_bind] in Halerts; injection Halerts as <-.
  - apply is_healthy_spec in Hh. rewrite Hh. split; [|done].
    intros _ status Hin. simpl in Hin.
    apply elem_of_app in Hin as [Hin|Hin]; by eapply no_api_alert_among in Hin.
  - split.
    + intros Heq. exfalso.
      assert (is_healthy (dict_get "status" d) = true) as Habs; [|congruence].
      apply is_healthy_spec.
      destruct (dict_get "status" d) as [j|]; simpl in Heq; [by subst|discriminate].
    + intros Hnone. exfalso. eapply Hnone. apply api_alert_between.
Qed.

Lemma logged_status_agrees_with_alert_witness :
  exists line alerts,
    log_metrics (report_of healthy_tick) = Ok line
    /\ check_alerts (report_of healthy_tick) = Ok alerts
    /\ (line.(logged_api_status) = JStr "healthy"
        <-> (forall status, ApiStatus status ∉ alerts)).
Proof.
  eexists _, _. split; [vm_compute; reflexivity|]. split; [vm_compute; reflexivity|].
  exact (logged_status_agrees_with_alert (report_of healthy_tick)
           (JDict [("status", JStr "healthy")]) _ _ eq_refl eq_refl eq_refl).
Defined.

(** *** Saves and the summary *)

(** X16. A save rewrites the [records] entry of the document and nothing
    else: every other key of the document read from the file is written
    back with the value it had. *)
Theorem save_keeps_other_keys
    (d : list (string * json)) (metrics data : json) (k : string) :
  save_metrics_to_file metrics (Document (JDict d)) = Ok data ->
  k ≠ "records" ->
  exists d', data = JDict d' /\ dict_get k d' = dict_get k d.
Proof.
  unfold save_metrics_to_file. simpl. intros H Hk.
  destruct (dict_get "records" d) as [[| | | |records|]|]; try discriminate.
  injection H as <-. eexists. split; [done|]. by apply dict_get_set_ne.
Qed.

Lemma save_keeps_other_keys_witness :
  exists d',
    save_metrics_to_file (JStr "tick")
      (Document (JDict [("host", JStr "gpu-01"); ("records", JList [])]))
    = Ok (JDict d')
    /\ dict_get "host" d' = Some (JStr "gpu-01").
Proof.
  destruct (save_keeps_other_keys [("host", JStr "gpu-01"); ("records", JList [])]
              (JStr "tick") _ "host" eq_refl) as (d' & Heq & Hget); [done|].
  exists d'. split; [by rewrite <- Heq | exact Hget].
Defined.

Lemma stored_after_save_is_document (log : file_state) (metrics : json) (old : list json) :
  stored_records log = Some old ->
  exists d, file_after_save log metrics = Document (JDict d).
Proof.
  unfold file_after_save, save_metrics_to_file, stored_records.
  destruct log as [| | e |data]; simpl; try discriminate; try by eexists.
  destruct data as [| | | | |d]; try discriminate.
  destruct (dict_get "records" d) as [[| | | |records|]|]; try discriminate.
  by eexists.
Qed.

Lemma ticks_leave_document (ticks : list json) (log : file_state) (tick : json)
    (old : list json) :
  stored_records log = Some old ->
  exists d, file_after_ticks log (tick :: ticks) = Document (JDict d).
Proof.
  revert log tick old. induction ticks as [|tick' ticks IH]; intros log tick old Hold.
  - by eapply stored_after_save_is_document.
  - change (file_after_ticks log (tick :: tick' :: ticks))
      with (file_after_ticks (file_after_save log tick) (tick' :: ticks)).
    eapply IH. by apply save_stores_most_recent.
Qed.

(** X17. Saving and summarizing compose: after the saves of a non-empty run
    of readable records into a missing or undecodable file, the summary
    report is printed, and the number of records it reports is the number
    of saved records, capped at 1000. *)
Theorem summary_after_saves (tick : json) (ticks : list json) :
  Forall readable (tick :: ticks) ->
  (exists s,
     generate_summary_report (file_after_ticks Missing (tick :: ticks)) = Printed s
     /\ s.(total_records) = (length (tick :: ticks) `min` 1000)%nat)
  /\ (exists s,
        generate_summary_report (file_after_ticks Undecodable (tick :: ticks)) = Printed s
        /\ s.(total_records) = (length (tick :: ticks) `min` 1000)%nat).
Proof.
  intros Hall.
  assert (forall log, stored_records log = Some [] ->
            exists s,
              generate_summary_report (file_after_ticks log (tick :: ticks)) = Printed s
              /\ s.(total_records) = (length (tick :: ticks) `min` 1000)%nat) as H.
  { intros log Hlog.
    pose proof (ticks_store_most_recent ticks log [] tick Hlog) as Hstored.
    destruct (ticks_leave_document ticks log tick [] Hlog) as [d Hd].
    rewrite Hd in Hstored |- *. simpl in Hstored.
    destruct (dict_get "records" d) as [[| | | |records|]|] eqn:Hget; try discriminate.
    injection Hstored as ->. simpl app.
    unfold generate_summary_report. cbn [get_or]. rewrite Hget. cbn [default].
    set (records := most_recent 1000 (tick :: ticks)).
    assert (length records = (length (tick :: ticks) `min` 1000)%nat) as Hlen
      by apply most_recent_length.
    assert (Forall readable records) as Hreadable.
    { destruct (most_recent_suffix 1000 (tick :: ticks)) as [dropped Hdropped].
      fold records in Hdropped. rewrite Hdropped in Hall.
      by apply Forall_app in Hall as [_ Hall]. }
    destruct records as [|r records']; [simpl in Hlen; lia|].
    destruct (summarize_readable r records' Hreadable) as [s Hs].
    exists s. unfold id. cbn [truthy length].
    rewrite bool_decide_eq_false_2 by done.
    cbn [negb]. rewrite Hs. split; [done|].
    apply summarize_fields in Hs as (_ & _ & _ & Htotal & _). by rewrite Htotal. }
  split; by apply H.
Qed.

Lemma summary_after_saves_witness :
  exists s,
    generate_summary_report (file_after_ticks Missing [full_record; idle_record]) = Printed s
    /\ s.(total_records) = 2%nat.
Proof.
  assert (Forall readable [full_record; idle_record]) as Hall.
  { repeat constructor; try (by eexists); try (by eexists _, _). }
  destruct (summary_after_saves full_record [idle_record] Hall) as [(s & Hs & Htotal) _].
  exists s. split; [exact Hs | exact Htotal].
Defined.
End MonitorMore.


(** ** The clients *)

Section ClientFacts.
Import Client Statements.

Lemma chat_turn_answer_length (messages : list (gmap string string)) user_input response :
  (length (chat_turn messages user_input (Answer response)) ≤ 10)%nat.
Proof.
  unfold chat_turn.
  destruct (Nat.ltb_spec 10
              (length ((messages ++ [message "user" user_input])
                       ++ [message "assistant" response]))) as [Hlt|Hle].
  - rewrite length_drop. lia.
  - done.
Qed.

(** X18. In [interactive_chat], as long as every chat is answered, the
    history never exceeds 10 messages after a turn, so no conversation sent
    to the server holds more than 11 messages. *)
Theorem answered_history_is_bounded
    (typed : list entry) (messages : list (gmap string string)) :
  (length messages ≤ 10)%nat ->
  forallb answered typed = true ->
  Forall (fun sent => (length sent ≤ 11)%nat) (interactive_chat messages typed).1
  /\ (length (interactive_chat messages typed).2 ≤ 10)%nat.
Proof.
  revert messages. induction typed as [|[| |user_input [response|e]] typed IH];
    intros messages Hlen Hall; simpl in *; try done.
  - by apply IH.
  - destruct (IH (chat_turn messages user_input (Answer response))
                (chat_turn_answer_length _ _ _) Hall) as [Hsent Hfinal].
    destruct (interactive_chat _ typed) as [requests final]. simpl in *.
    split; [|done]. constructor; [|done]. rewrite length_app. simpl. lia.
Qed.

Lemma answered_history_is_bounded_witness :
  Forall (fun sent => (length sent ≤ 11)%nat)
    (interactive_chat (replicate 10 (message "user" "earlier"))
       [Say "hi" (Answer "hello"); Blank; Say "bye" (Answer "bye"); Quit]).1
  /\ (length (interactive_chat (replicate 10 (message "user" "earlier"))
                [Say "hi" (Answer "hello"); Blank; Say "bye" (Answer "bye"); Quit]).2
      ≤ 10)%nat.
Proof.
  apply (answered_history_is_bounded
           [Say "hi" (Answer "hello"); Blank; Say "bye" (Answer "bye"); Quit]
           (replicate 10 (message "user" "earlier"))).
  - simpl. lia.
  - reflexivity.
Defined.

(** X19. The history is cut only after an answer: a chat that ends in an
    error leaves the user message in the history uncut, so a run of failed
    chats sends conversations that grow by one message each, without bound,
    and leaves all of them in the history. *)
Theorem failed_chats_accumulate
    (failed : list (string * string)) (messages : list (gmap string string)) :
  (interactive_chat messages (map (fun '(text, e) => Say text (Error e)) failed)).2
  = messages ++ map (fun '(text, _) => message "user" text) failed
  /\ map length
       (interactive_chat messages (map (fun '(text, e) => Say text (Error e)) failed)).1
     = map (fun k => (length messages + S k)%nat) (seq 0 (length failed)).
Proof.
  revert messages. induction failed as [|[text e] failed IH]; intros messages.
  - simpl. by rewrite app_nil_r.
  - cbn [map interactive_chat chat_turn].
    destruct (IH (messages ++ [message "user" text])) as [Hfinal Hsent].
    destruct (interactive_chat _ _) as [requests final]. simpl in *.
    split.
    + rewrite Hfinal. by rewrite <- app_assoc.
    + rewrite Hsent. f_equal; [rewrite length_app; simpl; lia|].
      rewrite <- (fmap_S_seq 0), <- list_fmap_compose.
      apply list_fmap_ext. intros _ k _. simpl. rewrite length_app. simpl. lia.
Qed.
End ClientFacts.

(** ** The launcher *)

Section LauncherFacts.
Import Launcher Statements.

Lemma choose_started (vllm_available : bool) (inputs : list typed) (started : list event) :
  choose vllm_available inputs = Ok started ->
  started = []
  \/ started = [StartTransformers]
  \/ (started = [StartVllm] /\ vllm_available = true).
Proof.
  induction inputs as [|[choice|] inputs IH]; simpl; [discriminate| |by intros [= <-]; left].
  destruct (decide (choice = "1")).
  - destruct vllm_available; [|done]. intros [= <-]. by right; right.
  - destruct (decide (choice = "2")); [by intros [= <-]; right; left|].
    destruct (decide (choice = "3")); [by intros [= <-]; left|done].
Qed.

(** X20. Whatever the command line, the environment and the typed input,
    the events of the launcher are a run of checks followed by at most one
    start of a server, its last action. It starts the vLLM server only when
    the dependencies, the model and vLLM were all found, the Transformers
    server only when the dependencies and the model were found, and nothing
    in check mode. *)
Theorem launcher_starts_only_checked
    (args : arguments) (env : environment) (inputs : list typed) :
  exists checks started,
    (main args env inputs).1 = checks ++ started
    /\ Forall (fun e => is_start e = false) checks
    /\ (started = []
        \/ (started = [StartTransformers]
            /\ env.(dependencies) = true /\ env.(model_found) = true
            /\ args.(arg_check) = false)
        \/ (started = [StartVllm]
            /\ env.(dependencies) = true /\ env.(model_found) = true
            /\ env.(vllm_installed) = true /\ args.(arg_check) = false)).
Proof.
  assert (forall trace : list event,
            Forall (fun e => is_start e = false) trace ->
            exists checks started,
              trace = checks ++ started
              /\ Forall (fun e => is_start e = false) checks
              /\ (started = []
                  \/ (started = [StartTransformers]
                      /\ env.(dependencies) = true /\ env.(model_found) = true
                      /\ args.(arg_check) = false)
                  \/ (started = [StartVllm]
                      /\ env.(dependencies) = true /\ env.(model_found) = true
                      /\ env.(vllm_installed) = true /\ args.(arg_check) = false))) as Hquiet.
  { intros trace Hall. exists trace, []. rewrite app_nil_r. by repeat split; [|left]. }
  unfold main. destruct args as [chosen check]. cbn [arg_check arg_engine].
  destruct check; [apply Hquiet; repeat constructor|].
  destruct env as [deps found vllm]. cbn [dependencies model_found vllm_installed] in *.
  destruct chosen as [[|]|].
  - destruct deps; cbn [negb]; [|apply Hquiet; repeat constructor].
    destruct found; cbn [negb]; [|apply Hquiet; repeat constructor].
    exists [CheckDependencies; CheckModel], [StartTransformers].
    split; [done|]. split; [repeat constructor|]. right; left. by repeat split.
  - destruct deps; cbn [negb]; [|apply Hquiet; repeat constructor].
    destruct found; cbn [negb]; [|apply Hquiet; repeat constructor].
    destruct vllm; [|apply Hquiet; repeat constructor].
    exists [CheckDependencies; CheckModel; CheckVllm], [StartVllm].
    split; [done|]. split; [repeat constructor|]. right; right. by repeat split.
  - unfold interactive_start. cbn [dependencies model_found vllm_installed].
    destruct deps; cbn [negb]; [|apply Hquiet; repeat constructor].
    destruct found; cbn [negb]; [|apply Hquiet; repeat constructor].
    destruct (choose vllm inputs) as [started|err] eqn:Hchoose; cbn [fst];
      [|apply Hquiet; repeat constructor].
    exists [CheckDependencies; CheckModel; CheckVllm], started.
    split; [done|]. split; [repeat constructor|].
    apply choose_started in Hchoose as [-> | [-> | [-> ->]]].
    + by left.
    + right; left. by repeat split.
    + right; right. by repeat split.
Qed.

(** Choice 1 without vLLM asks again: the next choice decides. *)
Example launcher_asks_again :
  main {| arg_engine := None; arg_check := false |}
       {| dependencies := true; model_found := true; vllm_installed := false |}
       [Line "1"; Line "x"; Line "2"]
  = ([CheckDependencies; CheckModel; CheckVllm; StartTransformers], None).
Proof. reflexivity. Qed.
End LauncherFacts.

(** ** The model table and the checks on a directory *)

Section DownloaderFacts.
Import Downloader Scenarios.

Lemma listed_directory (base : list (string * node)) (item : string) (entries : list string) :
  dict_get item base = Some (Dir entries) ->
  (item, existsb is_weights entries) ∈ list_downloaded_models base.
Proof.
  induction base as [|[item' n] base IH]; simpl; [discriminate|].
  destruct (decide (item = item')) as [<-|Hne].
  - intros [= ->]. constructor.
  - intros H. destruct n; [by apply IH|]. right. by apply IH.
Qed.

Lemma weights_found (entries : list string) :
  filter (fun f => is_weights f = true) entries ≠ [] -> existsb is_weights entries = true.
Proof.
  intros H. destruct (filter _ entries) as [|f fs] eqn:Hf; [done|].
  assert (f ∈ filter (fun f => is_weights f = true) entries) as Hin
    by (rewrite Hf; constructor).
  apply list_elem_of_filter in Hin as [Hw Hin].
  apply existsb_exists. exists f. split; [by apply list_elem_of_In|done].
Qed.

(** X21. A model that [verify_model] accepts is a supported one whose
    directory is shown as complete by [list_downloaded_models]; the
    directory holds the three required files and a weights file. The
    listing alone asks for less: it shows a directory as complete as soon
    as it holds a weights file. *)
Theorem verified_model_is_listed_complete (base : list (string * node)) (key : string) :
  verify_model base key = Ok true ->
  exists info entries,
    get_model_info key = Ok info
    /\ dict_get info.(local_dir) base = Some (Dir entries)
    /\ (info.(local_dir), true) ∈ list_downloaded_models base
    /\ Forall (fun file => file ∈ entries) required_files
    /\ (exists f, f ∈ entries /\ is_weights f = true).
Proof.
  unfold verify_model. destruct (get_model_info key) as [info|]; [|discriminate].
  cbn [mbind result_bind].
  destruct (dict_get (local_dir info) base) as [[|entries]|] eqn:Hdir; try discriminate.
  destruct (forallb (fun file => bool_decide (file ∈ entries)) required_files) eqn:Hreq;
    [|discriminate].
  intros [= Hweights]. apply negb_true_iff, bool_decide_eq_false in Hweights.
  exists info, entries. split; [done|]. split; [done|].
  split; [|split].
  - rewrite <- (weights_found _ Hweights). by apply listed_directory.
  - apply Forall_forall. intros file Hin.
    rewrite forallb_forall in Hreq. apply list_elem_of_In in Hin.
    by apply Hreq, bool_decide_eq_true in Hin.
  - destruct (filter _ entries) as [|f fs] eqn:Hf; [done|].
    assert (f ∈ filter (fun f => is_weights f = true) entries) as Hin
      by (rewrite Hf; constructor).
    apply list_elem_of_filter in Hin as [Hw Hin]. by exists f.
Qed.

Lemma verified_model_is_listed_complete_witness :
  exists info entries,
    get_model_info "qwen2.5-32b" = Ok info
    /\ dict_get info.(local_dir) models_directory = Some (Dir entries)
    /\ (info.(local_dir), true) ∈ list_downloaded_models models_directory
    /\ Forall (fun file => file ∈ entries) required_files
    /\ (exists f, f ∈ entries /\ is_weights f = true).
Proof. exact (verified_model_is_listed_complete models_directory "qwen2.5-32b" eq_refl). Defined.

(** A directory with weights but no configuration is listed as complete and
    fails the verification. *)
Example listed_complete_not_verified :
  ("Qwen2-7B-Instruct", true) ∈ list_downloaded_models models_directory
  /\ verify_model models_directory "qwen2-7b" = Ok false.
Proof. split; [|reflexivity]. vm_compute. right. constructor. Qed.

(** X22. The table of supported models is consistent: every key is resolved
    to its repository, to a known size estimate and to the directory named
    after the repository without its owner, no two keys share a directory,
    and any other key is refused with an error that names it. *)
Theorem supported_models_resolve :
  Forall (fun entry =>
            exists info,
              get_model_info entry.1 = Ok info
              /\ info.(model_name) = entry.2
              /\ "Qwen/" +:+ info.(local_dir) = entry.2
              /\ info.(estimated_size) ≠ "未知"
              /\ info.(model_key) = entry.1)
         SUPPORTED_MODELS
  /\ NoDup (map (fun entry => split_last slash entry.2) SUPPORTED_MODELS)
  /\ (forall key,
        dict_get key SUPPORTED_MODELS = None ->
        get_model_info key = Raise ("不支持的模型: " +:+ key)).
Proof.
  split; [|split].
  - repeat constructor; eexists; (split; [reflexivity|]); by repeat split.
  - apply NoDup_ListNoDup. vm_compute. repeat constructor; simpl; intuition discriminate.
  - intros key Hkey. unfold get_model_info. by rewrite Hkey.
Qed.
End DownloaderFacts.

(** ** The status table of the summary *)

Section StatusTableFacts.
Import Monitor Statements.




End StatusTableFacts.

(** ** Failures of the blocking server *)

Section FailureFacts.
Import ModelConfig Statements Scenarios.

(** X24. The streaming and the plain endpoint of the engine server submit
    the same prompt with the same sampling parameters for the same request,
    each under the request id it drew itself: either neither calls the
    engine, or each makes exactly one call, on the formatted prompt, with
    the resolved sampling parameters and its own id. *)
Theorem stream_and_plain_submit_same_prompt
    verify_args engine plain_id stream_id start_time end_time now request :
  ((VllmServer.chat verify_args engine plain_id start_time end_time request).1 = []
   /\ (VllmServer.chat_stream verify_args engine stream_id now request).1 = [])
  \/ ((VllmServer.chat verify_args engine plain_id start_time end_time request).1
      = [ VllmServer.CallGenerate (Formatter.format_chat_messages request.(messages))
            (VllmServer.sampling_params_of request) plain_id ]
      /\ (VllmServer.chat_stream verify_args engine stream_id now request).1
         = [ VllmServer.CallGenerate (Formatter.format_chat_messages request.(messages))
               (VllmServer.sampling_params_of request) stream_id ]).
Proof.
  unfold VllmServer.chat, VllmServer.chat_stream.
  destruct engine as [engine|]; [|by left].
  destruct (verify_args _); [|by left].
  right. by destruct (VllmServer.wait_final _) as [[final|]|].
Qed.

(** X25. A failure of the blocking server is reported at once and with its
    cause: when [chat] answers 500, the last call it made is the call that
    raised (the tokenizer, the model or the decoder), no call follows it,
    and the detail of the error is the fixed prefix followed by the text of
    that exception. *)
Theorem failure_reports_cause
    (model : ModelServer.Model) (tokenizer : ModelServer.Tokenizer)
    start_time end_time request calls detail :
  ModelServer.chat (Some model) (Some tokenizer) start_time end_time request
  = (calls, HTTPException 500 detail) ->
  exists e earlier failing,
    detail = "处理请求时发生错误: " +:+ e
    /\ calls = earlier ++ [failing]
    /\ match failing with
       | ModelServer.CallEncode input_text =>
           tokenizer.(ModelServer.encode) input_text = Raise e
       | ModelServer.CallGenerate input_ids generation_kwargs =>
           model.(ModelServer.generate) input_ids generation_kwargs = Raise e
       | ModelServer.CallDecode token_ids =>
           tokenizer.(ModelServer.decode) token_ids = Raise e
       end.
Proof.
  unfold ModelServer.chat. intros H.
  destruct (ModelServer.encode _ _) as [input_ids|e] eqn:Henc.
  - destruct (ModelServer.generate _ _ _) as [outputs|e] eqn:Hgen.
    + destruct (ModelServer.decode _ _) as [text|e] eqn:Hdec; [discriminate|].
      injection H as <- <-. eexists e, [_; _], (ModelServer.CallDecode _).
      split; [reflexivity|]. split; [reflexivity|exact Hdec].
    + injection H as <- <-. eexists e, [_], (ModelServer.CallGenerate _ _).
      split; [reflexivity|]. split; [reflexivity|exact Hgen].
  - injection H as <- <-. eexists e, [], (ModelServer.CallEncode _).
    split; [reflexivity|]. split; [reflexivity|exact Henc].
Qed.

Lemma failure_reports_cause_witness :
  exists earlier failing,
    (ModelServer.chat (Some failing_model) (Some stub_tokenizer) 0%float 1%float hi_request)
    = (earlier ++ [failing], HTTPException 500 "处理请求时发生错误: CUDA out of memory")
    /\ match failing with
       | ModelServer.CallGenerate input_ids generation_kwargs =>
           failing_model.(ModelServer.generate) input_ids generation_kwargs
           = Raise "CUDA out of memory"
       | _ => False
       end.
Proof.
  destruct (failure_reports_cause failing_model stub_tokenizer 0%float 1%float hi_request
              _ _ eq_refl) as (e & earlier & failing & Hdetail & Hcalls & Hfail).
  exists [ModelServer.CallEncode (Formatter.format_chat_messages hi)],
         (ModelServer.CallGenerate
            (map (fun c => Z.of_nat (Ascii.nat_of_ascii c))
                 (String.list_ascii_of_string (Formatter.format_chat_messages hi)))
            (ModelServer.generation_kwargs_of hi_request)).
  split; reflexivity.
Defined.
End FailureFacts.
